(** * jupyterlab_templates: the template enumerators and the two request handlers

    A shallow embedding of [jupyterlab_templates/extension.py]:
    - the Python string and path helpers the code calls ([str.replace],
      [str.strip], [in], [os.path.join], [os.path.split], [os.walk]);
    - [TemplatesLoader] (the local enumerator) over a file system given by a
      directory tree and the bytes of its files, read in text mode;
    - [ContentsManagerTemplatesLoader] (the store-backed enumerator) over a
      contents manager given by its list-directory and read-notebook calls,
      with the order of [set.pop] left to an arbitrary oracle;
    - [TemplatesHandler] and [TemplateNamesHandler] over a small model of the
      tornado request handler: the value [get_argument] returns, status, write
      buffer, [finish] with its answer to a conditional request, and the error
      response for an exception.

    Methods are written in a state-and-exception monad whose state is the
    object the method is called on ([self]), so that a write to an attribute
    would show in the final state. *)

From Stdlib Require Import String Ascii List Bool Arith Lia Permutation.
From stdpp Require Import gmap strings list fin_maps sets.

Local Open Scope string_scope.
Local Open Scope list_scope.

(** ** Python strings *)

Module Str.

(** [sub in s] on strings: [sub] occurs in [s] as a contiguous run. *)
Fixpoint contains (sub s : string) : bool :=
  String.prefix sub s ||
  match s with
  | EmptyString => false
  | String _ rest => contains sub rest
  end.

Definition startswith (s pre : string) : bool := String.prefix pre s.

Fixpoint endswith_char (s : string) (c : ascii) : bool :=
  match s with
  | EmptyString => false
  | String a EmptyString => Ascii.eqb a c
  | String _ rest => endswith_char rest c
  end.

Fixpoint mem_char (c : ascii) (chars : string) : bool :=
  match chars with
  | EmptyString => false
  | String a rest => Ascii.eqb a c || mem_char c rest
  end.

(** [s.lstrip(chars)] and [s.rstrip(chars)]: drop the leading (trailing)
    characters that belong to [chars]. *)
Fixpoint lstrip (chars s : string) : string :=
  match s with
  | EmptyString => EmptyString
  | String c rest => if mem_char c chars then lstrip chars rest else s
  end.

Fixpoint rstrip (chars s : string) : string :=
  match s with
  | EmptyString => EmptyString
  | String c rest =>
      match rstrip chars rest with
      | EmptyString => if mem_char c chars then EmptyString else String c EmptyString
      | r => String c r
      end
  end.

(** [s.strip(chars)] *)
Definition strip (chars s : string) : string := rstrip chars (lstrip chars s).

(** What [s.strip()] without an argument removes: the characters [str.isspace]
    holds for. A character of a [string] is a code point below 256; among
    these they are 9 to 13, 28 to 32, 133 and 160. *)
Definition whitespace : string :=
  String "009"%char (String "010"%char (String "011"%char (String "012"%char
  (String "013"%char (String "028"%char (String "029"%char (String "030"%char
  (String "031"%char (String " "%char (String "133"%char (String "160"%char
  EmptyString))))))))))).

(** [s[n:]] *)
Fixpoint drop (n : nat) (s : string) : string :=
  match n, s with
  | S k, String _ rest => drop k rest
  | _, _ => s
  end.

(** [s.replace(old, new)] for a non-empty [old]: scan from the left, and at
    each occurrence emit [new] and jump over the occurrence ([skip] counts the
    characters of the occurrence still to be jumped over). *)
Fixpoint replace_from (old new : string) (skip : nat) (s : string) : string :=
  match s with
  | EmptyString => EmptyString
  | String c rest =>
      match skip with
      | S k => replace_from old new k rest
      | O =>
          if String.prefix old s
          then new ++ replace_from old new (String.length old - 1) rest
          else String c (replace_from old new 0 rest)
      end
  end.

(** With an empty [old], Python puts [new] before every character and at the
    end. *)
Fixpoint intersperse (new s : string) : string :=
  match s with
  | EmptyString => new
  | String c rest => new ++ String c (intersperse new rest)
  end.

Definition replace (old new s : string) : string :=
  match old with
  | EmptyString => intersperse new s
  | _ => replace_from old new 0 s
  end.

End Str.

(** ** [os.path] on POSIX *)

Module OsPath.

Definition sep : string := "/".

(** [posixpath.join(a, b)] *)
Definition join (a b : string) : string :=
  if Str.startswith b sep then b
  else if (String.eqb a "" || Str.endswith_char a "/"%char)%bool then a ++ b
  else a ++ sep ++ b.

(** [posixpath.split(p)]: head is everything before the last slash with its
    trailing slashes removed (unless it is all slashes), tail what follows. *)
Fixpoint split_last (p : string) : string * string :=
  match p with
  | EmptyString => (EmptyString, EmptyString)
  | String c rest =>
      let '(h, t) := split_last rest in
      if Str.contains sep rest then (String c h, t)
      else if Ascii.eqb c "/"%char then (String c EmptyString, rest)
      else (EmptyString, p)
  end.

Definition split (p : string) : string * string :=
  let '(h, t) := split_last p in
  let h' := Str.rstrip sep h in
  (if String.eqb h' "" then h else h', t).

End OsPath.

(** ** Exceptions and the method monad *)

Inductive exn : Type :=
| KeyError (key : string)          (* a dict lookup that misses *)
| ReadError (path : string)        (* an error of [open]/[read] the code does not catch *)
| StoreError (path : string)       (* whatever the contents manager raises *)
| RuntimeError                     (* tornado: finish() called twice *)
| AssertionError.                  (* tornado: a body under a status that has none *)

(** The outcome of a call: a value, an exception, or [OutOfFuel] when the
    bound given to a [while] loop of the model was too small (not an outcome
    of the program). *)
Inductive result (A : Type) : Type :=
| Ok (a : A)
| Raise (e : exn)
| OutOfFuel.
Arguments Ok {A} a.
Arguments Raise {A} e.
Arguments OutOfFuel {A}.

Definition result_bind {A B} (r : result A) (f : A -> result B) : result B :=
  match r with
  | Ok a => f a
  | Raise e => Raise e
  | OutOfFuel => OutOfFuel
  end.

(** A [for] loop whose body may raise: the first exception ends the loop. *)
Fixpoint for_each {A X} (body : A -> X -> result A) (xs : list X) (acc : A) : result A :=
  match xs with
  | [] => Ok acc
  | x :: rest => result_bind (body acc x) (for_each body rest)
  end.

(** A method of an object of type [S]: from the object's state to its state
    after the call and the value returned or the exception raised. *)
Definition M (S A : Type) : Type := S -> S * result A.

Definition ret {S A} (a : A) : M S A := fun s => (s, Ok a).

Definition bind {S A B} (m : M S A) (f : A -> M S B) : M S B :=
  fun s =>
    match m s with
    | (s', Ok a) => f a s'
    | (s', Raise e) => (s', Raise e)
    | (s', OutOfFuel) => (s', OutOfFuel)
    end.

(** Reading an attribute [self.x]. *)
Definition attr {S A} (proj : S -> A) : M S A := fun s => (s, Ok (proj s)).

(** A computation that does not touch the object. *)
Definition lift {S A} (r : result A) : M S A := fun s => (s, r).

Notation "x <- m ;; k" := (bind m (fun x => k))
  (at level 100, m at next level, right associativity).

(** A method leaves its object as it found it. *)
Definition read_only {S A} (m : M S A) : Prop := forall s, fst (m s) = s.


(** ** The file system seen by the local enumerator *)

(** A directory as [os.scandir] shows it to [os.walk]: the names of its entries
    that are not directories, and its subdirectories (symbolic links to
    directories included, since the walk follows links) by name. The tree is
    finite: a link cycle, on which the walk would not end, is not a value of
    this type. *)
#[warning="-register-all"]
Inductive dir : Type :=
| Dir (filenames : list string) (subdirs : list (string * dir)).

Definition dir_filenames (d : dir) : list string :=
  match d with Dir filenames _ => filenames end.

Definition dir_subdirs (d : dir) : list (string * dir) :=
  match d with Dir _ subdirs => subdirs end.

(** What [open(p, "r", encoding="utf8")] does before anything is read. *)
Inductive open_result : Type :=
| OpenOk (bytes : string)     (* the file opens; its bytes *)
| OpenSkip                    (* FileNotFoundError or PermissionError *)
| OpenFail.                   (* any other exception, e.g. IsADirectoryError *)

Record filesystem : Type := {
  (* the directory tree under a path given to os.walk; None when the path is
     not a directory that can be listed (the walk then yields nothing) *)
  fs_tree : string -> option dir;
  (* os.path.abspath(os.path.join(os.path.realpath(path), os.pardir)) *)
  fs_parent : string -> string;
  (* opening the file at a path *)
  fs_open : string -> open_result;
  (* the codec the files are read with, bytes.decode("utf8"): None when it
     raises UnicodeDecodeError *)
  utf8_decode : string -> option string;
}.

Definition CR : ascii := "013"%char.

Definition LF : ascii := "010"%char.

(** A file opened in text mode without a [newline] argument is read with
    universal newlines: every ["\r\n"] and every other ["\r"] of the decoded
    text comes out as ["\n"]. *)
Fixpoint universal_newlines (text : string) : string :=
  match text with
  | EmptyString => EmptyString
  | String c rest =>
      if Ascii.eqb c CR then
        String LF
          match rest with
          | EmptyString => EmptyString
          | String c' rest' =>
              if Ascii.eqb c' LF then universal_newlines rest'
              else universal_newlines rest
          end
      else String c (universal_newlines rest)
  end.

(** What [open(p, "r", encoding="utf8")] followed by [read()] does. *)
Inductive read_result : Type :=
| ReadOk (content : string)   (* the text read *)
| ReadSkip                    (* FileNotFoundError or PermissionError *)
| ReadFail.                   (* any other exception, e.g. UnicodeDecodeError *)

Definition fs_read (fs : filesystem) (p : string) : read_result :=
  match fs_open fs p with
  | OpenOk bytes =>
      match utf8_decode fs bytes with
      | Some text => ReadOk (universal_newlines text)
      | None => ReadFail
      end
  | OpenSkip => ReadSkip
  | OpenFail => ReadFail
  end.

(** [os.walk(top, followlinks=True)], top-down: the triple of the directory
    itself, then the walks of its subdirectories in order. *)
Fixpoint os_walk (top : string) (d : dir) : list (string * list string * list string) :=
  match d with
  | Dir filenames subdirs =>
      (top, map fst subdirs, filenames)
        :: flat_map (fun entry => os_walk (OsPath.join top (fst entry)) (snd entry)) subdirs
  end.

Definition walk (fs : filesystem) (path : string) : list (string * list string * list string) :=
  match fs_tree fs path with
  | Some d => os_walk path d
  | None => []
  end.

(** ** The records the enumerators build *)

(** The dict [{"path", "name", "dirname", "filename", "content"}]. *)
Module Data.
Record t : Type := mk {
  path : string;
  name : string;
  dirname : string;
  filename : string;
  content : string;
}.
End Data.

(** The dict [{"name": ...}] of a listing. *)
Module Entry.
Record t : Type := mk { name : string }.
End Entry.

Definition TEMPLATES_IGNORE_FILE : string := ".jupyterlab_templates_ignore".

(** ** TemplatesLoader *)

Module TemplatesLoader.

Record self : Type := {
  template_dirs : list string;
  template_label : string;
  allowed_extensions : list string;
}.

(** [__init__]: [x or default] takes the default for [None] and for an empty
    string or list. *)
Definition __init__ (template_dirs : list string)
    (allowed_extensions : option (list string)) (template_label : option string) : self :=
  {| template_dirs := template_dirs;
     template_label :=
       match template_label with
       | None | Some EmptyString => "Template"
       | Some l => l
       end;
     allowed_extensions :=
       match allowed_extensions with
       | None | Some [] => ["*.ipynb"]
       | Some l => l
       end |}.

Section WithFnmatch.

(** [fnmatch.fnmatch(name, pattern)] *)
Variable fnmatch : string -> string -> bool.

(** The body of the loop over [os.walk(path)] for one triple: what it
    appends to [files]. *)
Definition dir_files (path : string) (exts : list string)
    (entry : string * list string * list string) : list (string * string * string) :=
  let '(dirname, _, filenames) := entry in
  if decide (dirname = path) then []
  else if decide (TEMPLATES_IGNORE_FILE ∈ filenames) then []
  else
    let _files := List.filter (fun x => existsb (fun y => fnmatch x y) exts) filenames in
    flat_map
      (fun filename =>
         if negb (Str.contains ".ipynb_checkpoints" dirname)
         then [(OsPath.join dirname filename, Str.replace path "" dirname, filename)]
         else [])
      _files.

(** The list [files] after the walk of one root. *)
Definition scan (fs : filesystem) (exts : list string) (path : string)
    : list (string * string * string) :=
  flat_map (dir_files path exts) (walk fs path).

(** The body of the loop over [files]: read the file, and on success push
    its name into its group and its record into the index. *)
Definition load (fs : filesystem) (abspath : string)
    (st : gmap string (list Entry.t) * gmap string Data.t)
    (file : string * string * string)
    : result (gmap string (list Entry.t) * gmap string Data.t) :=
  let '(templates, template_by_path) := st in
  let '(f, dirname, filename) := file in
  match fs_read fs (OsPath.join abspath f) with
  | ReadSkip => Ok st
  | ReadFail => Raise (ReadError (OsPath.join abspath f))
  | ReadOk content =>
      let data := Data.mk f (OsPath.join dirname filename) dirname filename content in
      let group := Str.strip OsPath.sep dirname in
      let templates :=
        match templates !! group with
        | None => <[group := []]> templates
        | Some _ => templates
        end in
      let templates :=
        alter (fun l => l ++ [Entry.mk (Data.name data)]) group templates in
      Ok (templates, <[Data.name data := data]> template_by_path)
  end.

(** The body of the loop over [self.template_dirs]. *)
Definition load_root (fs : filesystem) (exts : list string)
    (st : gmap string (list Entry.t) * gmap string Data.t) (path : string)
    : result (gmap string (list Entry.t) * gmap string Data.t) :=
  let abspath := fs_parent fs path in
  let files := scan fs exts path in
  for_each (load fs abspath) files st.

Definition _old (fs : filesystem)
    : M self (gmap string (list Entry.t) * gmap string Data.t) :=
  dirs <- attr template_dirs ;;
  exts <- attr allowed_extensions ;;
  lift (for_each (load_root fs exts) dirs (∅, ∅)).

Definition get_templates (fs : filesystem) : M self (gmap string (list Entry.t)) :=
  r <- _old fs ;;
  ret (fst r).

Definition get_template (path : string) (fs : filesystem) : M self Data.t :=
  r <- _old fs ;;
  match snd r !! path with
  | Some data => ret data
  | None => lift (Raise (KeyError path))
  end.

End WithFnmatch.

End TemplatesLoader.

(** ** A matcher for the examples *)

(** [fnmatch] on patterns made of literal characters, [*] and [?] (no bracket
    expressions), on a platform where [os.path.normcase] is the identity. *)
Fixpoint glob (pattern : list ascii) (name : list ascii) : bool :=
  match pattern with
  | [] => match name with [] => true | _ => false end
  | p :: pattern' =>
      if Ascii.eqb p "*"%char then
        (fix star (name : list ascii) : bool :=
           glob pattern' name ||
           match name with
           | [] => false
           | _ :: name' => star name'
           end) name
      else
        match name with
        | [] => false
        | c :: name' =>
            (Ascii.eqb p "?"%char || Ascii.eqb p c) && glob pattern' name'
        end
  end.

Definition fnmatch_glob (name pattern : string) : bool :=
  glob (list_ascii_of_string pattern) (list_ascii_of_string name).

(** ** The contents manager seen by the store-backed enumerator *)

(** A child model of a directory listing: the keys ["type"] and ["path"]. *)
Module Model.
Record t : Type := mk { type : string; path : string }.
End Model.

Record contents_manager : Type := {
  (* get(path, content=True, type="directory")["content"];
     None when the call raises *)
  cm_directory : string -> option (list Model.t);
  (* json.dumps(get(path, content=True, type="notebook")["content"],
     default=json_default); None when the call raises *)
  cm_notebook : string -> option string;
}.

(** ** ContentsManagerTemplatesLoader *)

Module ContentsManagerTemplatesLoader.

Record self : Type := {
  (* a dict from group name to root path, as its items in order *)
  template_dirs : list (string * string);
  template_label : string;
  allowed_extensions : list string;
}.

Definition __init__ (template_dirs : list (string * string))
    (template_label : option string) (allowed_extensions : option (list string))
    (include_default : bool) : self :=
  {| template_dirs := template_dirs;
     template_label :=
       match template_label with
       | None | Some EmptyString => "Template"
       | Some l => l
       end;
     allowed_extensions :=
       match allowed_extensions with
       | None | Some [] => ["*.ipynb"]
       | Some l => l
       end |}.

Section WithPop.

(** [set.pop()]: which element of the pending set comes out is not
    specified; [pop] chooses it, knowing the paths listed so far. *)
Variable pop : list string -> gset string -> option string.

Variable cm : contents_manager.

(** The body of [for x in dir_result["content"]]. *)
Definition visit_child (name : string)
    (st : gset string * gmap string (list Entry.t)) (x : Model.t)
    : gset string * gmap string (list Entry.t) :=
  let '(dirs_to_scan, templates) := st in
  if decide (Model.type x = "directory") then
    ({[Model.path x]} ∪ dirs_to_scan, templates)
  else if decide (Model.type x = "notebook") then
    (dirs_to_scan, alter (fun l => l ++ [Entry.mk (Model.path x)]) name templates)
  else st.

(** The [while len(dirs_to_scan) > 0] loop, run for at most [fuel] rounds.
    [listed] records the paths the contents manager was asked to list, in
    order. *)
Fixpoint scan_dirs (fuel : nat) (name : string) (dirs_to_scan : gset string)
    (templates : gmap string (list Entry.t)) (listed : list string)
    : result (gmap string (list Entry.t) * list string) :=
  if decide (0 < size dirs_to_scan) then
    match fuel with
    | O => OutOfFuel
    | S fuel' =>
        match pop listed dirs_to_scan with
        | None => Raise (KeyError "pop from an empty set")
        | Some path =>
            let dirs_to_scan := dirs_to_scan ∖ {[path]} in
            match cm_directory cm path with
            | None => Raise (StoreError path)
            | Some content =>
                let '(dirs_to_scan, templates) :=
                  fold_left (visit_child name) content (dirs_to_scan, templates) in
                scan_dirs fuel' name dirs_to_scan templates (listed ++ [path])
            end
        end
    end
  else Ok (templates, listed).

(** The body of [for name in self.template_dirs]. *)
Definition scan_group (fuel : nat)
    (st : gmap string (list Entry.t) * list string) (group : string * string)
    : result (gmap string (list Entry.t) * list string) :=
  let '(templates, listed) := st in
  let '(name, root) := group in
  let templates := <[name := []]> templates in
  let dirs_to_scan : gset string := list_to_set [root] in
  scan_dirs fuel name dirs_to_scan templates listed.

(** The whole traversal, with the list of paths listed. *)
Definition traverse (fuel : nat) (template_dirs : list (string * string))
    : result (gmap string (list Entry.t) * list string) :=
  for_each (scan_group fuel) template_dirs (∅, []).

Definition get_templates (fuel : nat) : M self (gmap string (list Entry.t)) :=
  dirs <- attr template_dirs ;;
  r <- lift (traverse fuel dirs) ;;
  ret (fst r).

Definition get_template (path : string) : M self Data.t :=
  match cm_notebook cm path with
  | None => lift (Raise (StoreError path))
  | Some text =>
      ret (Data.mk path (snd (OsPath.split path)) (fst (OsPath.split path))
             (snd (OsPath.split path)) text)
  end.

End WithPop.

End ContentsManagerTemplatesLoader.

(** ** The request handlers *)

(** What is written to a response: [finish] and [write] turn a dict into its
    JSON text; the two dicts the handlers send are kept as they are. *)
Inductive chunk : Type :=
| JsonRecord (data : Data.t)
| JsonNames (templates : gmap string (list Entry.t)) (template_label : string)
| ErrorPage.

Record response : Type := {
  resp_status : nat;
  resp_body : list chunk;
}.

(** A GET request as the handler reads it ([self.request] and
    [self.current_user]). *)
Record HTTPServerRequest : Type := {
  (* whether the request carries a logged-in user *)
  current_user : bool;
  (* the value of the query parameter template as it arrives, decoded as
     UTF-8 (the last one when it is given more than once); None when it is
     not given. A value that is not valid UTF-8 is no value of this type. *)
  template_argument : option string;
  (* the header If-None-Match; None when the request has none *)
  if_none_match : option string;
}.

(** The part of [tornado.web.RequestHandler] the handlers use, with the loader
    the handler was initialised with. *)
Module RequestHandler.

Record self (L : Type) : Type := mk {
  request : HTTPServerRequest;
  loader : L;
  _status_code : nat;
  _write_buffer : list chunk;
  _finished : bool;
  (* the response put on the wire by finish, once *)
  sent : option response;
}.
Arguments mk {L}.
Arguments request {L}.
Arguments loader {L}.
Arguments _status_code {L}.
Arguments _write_buffer {L}.
Arguments _finished {L}.
Arguments sent {L}.

(** [_remove_control_chars_regex], the class [[\x00-\x08\x0e-\x1f]]. *)
Definition control_char (c : ascii) : bool :=
  let n := nat_of_ascii c in
  Nat.leb n 8 || (Nat.leb 14 n && Nat.leb n 31).

(** [_remove_control_chars_regex.sub(" ", s)] *)
Fixpoint remove_control_chars (s : string) : string :=
  match s with
  | EmptyString => EmptyString
  | String c rest =>
      String (if control_char c then " "%char else c) (remove_control_chars rest)
  end.

(** What [_get_arguments] makes of a decoded value, with [strip] left at its
    default [True]: control characters become spaces, then [s.strip()]. *)
Definition clean_argument (v : string) : string :=
  Str.strip Str.whitespace (remove_control_chars v).

Definition quote : ascii := "034"%char.

(** After an opening quote: the number of characters up to the closing quote,
    that quote included. *)
Fixpoint closing_quote (s : string) : option nat :=
  match s with
  | EmptyString => None
  | String c rest =>
      if Ascii.eqb c quote then Some 1 else option_map S (closing_quote rest)
  end.

(** The pattern [check_etag_header] looks for in the header: an asterisk, or
    a quoted string (an opening quote, characters other than a quote, a
    closing quote) with or without [W/] before it. The length of its match at
    the start of [s]. *)
Definition entity_tag_at (s : string) : option nat :=
  if String.prefix "*" s then Some 1
  else if String.prefix "W/" s then
    if String.prefix (String quote "") (Str.drop 2 s)
    then option_map (fun n => 3 + n) (closing_quote (Str.drop 3 s))
    else None
  else if String.prefix (String quote "") s then
    option_map S (closing_quote (Str.drop 1 s))
  else None.

(** [re.findall] of that pattern, from the left without overlap ([skip]
    counts the characters of a match still to be jumped over). *)
Fixpoint findall_from (skip : nat) (s : string) : list string :=
  match s with
  | EmptyString => []
  | String _ rest =>
      match skip with
      | S k => findall_from k rest
      | O =>
          match entity_tag_at s with
          | Some n => String.substring 0 n s :: findall_from (n - 1) rest
          | None => findall_from 0 rest
          end
      end
  end.

(** The weak comparison of entity tags drops a leading [W/]. *)
Definition val (x : string) : string :=
  if String.prefix "W/" x then Str.drop 2 x else x.

(** [check_etag_header()], for the value of the response's [Etag] header and
    the request's [If-None-Match] header. *)
Definition check_etag_header (computed_etag : string) (header : option string) : bool :=
  let etags := findall_from 0 (default "" header) in
  match etags with
  | [] => false
  | first :: _ =>
      if String.eqb computed_etag "" then false
      else if String.eqb first "*" then true
      else existsb (fun etag => String.eqb (val etag) (val computed_etag)) etags
  end.

(** The statuses that go without a body. *)
Definition no_body (code : nat) : bool :=
  Nat.eqb code 204 || Nat.eqb code 304 || (Nat.leb 100 code && Nat.ltb code 200).

Section Methods.
Context {L : Type}.

(** [hashlib.sha1] over the parts written, as hexadecimal digits. *)
Variable sha1_hex : list chunk -> string.

(** [compute_etag()] for a write buffer. *)
Definition compute_etag (buffer : list chunk) : string :=
  String quote (sha1_hex buffer ++ String quote "").

(** A handler as the server creates it for a request: status 200, nothing
    written. *)
Definition fresh (req : HTTPServerRequest) (l : L) : self L := mk req l 200 [] false None.

Definition set_status (code : nat) : M (self L) unit :=
  fun h => (mk (request h) (loader h) code (_write_buffer h) (_finished h) (sent h), Ok tt).

Definition write (c : chunk) : M (self L) unit :=
  fun h =>
    if _finished h then (h, Raise RuntimeError)
    else
      (mk (request h) (loader h) (_status_code h) (_write_buffer h ++ [c]) false (sent h),
       Ok tt).

(** [finish(chunk)] of a GET request, nothing having been flushed before: a
    second call raises; the chunk, if there is one, is written; with status
    200 the [Etag] header is computed from the buffer, and when the request's
    [If-None-Match] names it the buffer is dropped and the status becomes 304;
    a status that goes without a body must have none; then status and buffer
    are sent and the handler is marked finished. *)
Definition finish (c : option chunk) : M (self L) unit :=
  fun h =>
    if _finished h then (h, Raise RuntimeError)
    else
      let buffer := _write_buffer h ++ match c with Some x => [x] | None => [] end in
      let not_modified :=
        Nat.eqb (_status_code h) 200
        && check_etag_header (compute_etag buffer) (if_none_match (request h)) in
      let status := if not_modified then 304 else _status_code h in
      let body := if not_modified then [] else buffer in
      if no_body status && negb (Nat.eqb (length body) 0) then
        (mk (request h) (loader h) status body false (sent h), Raise AssertionError)
      else
        (mk (request h) (loader h) status [] true
            (Some {| resp_status := status; resp_body := body |}),
         Ok tt).

(** [send_error(500)]: drop what was written and send the error page. *)
Definition send_error (code : nat) : M (self L) unit :=
  fun h =>
    if _finished h then (h, Ok tt)
    else
      (mk (request h) (loader h) code [] true
          (Some {| resp_status := code; resp_body := [ErrorPage] |}),
       Ok tt).

(** [get_argument("template", default)]: the default when the parameter is
    not given, else its value with control characters turned into spaces and
    the surrounding whitespace stripped. *)
Definition get_argument (default : string) : M (self L) string :=
  fun h =>
    (h, Ok match template_argument (request h) with
           | Some v => clean_argument v
           | None => default
           end).

(** A call of a method of [self.loader]. *)
Definition on_loader {A} (m : M L A) : M (self L) A :=
  fun h =>
    let '(l, r) := m (loader h) in
    (mk (request h) l (_status_code h) (_write_buffer h) (_finished h) (sent h), r).

(** [@tornado.web.authenticated] on a GET method: without a user the
    request is redirected to the login page and the method is not run. *)
Definition authenticated (method : M (self L) unit) : M (self L) unit :=
  fun h =>
    if current_user (request h) then method h
    else (_ <- set_status 302 ;; finish None) h.

(** How the server runs a method: after it returns the response is
    finished if the method did not do so; an exception raised before the
    response was finished becomes the error response 500. *)
Definition execute (method : M (self L) unit) (h : self L) : self L * result unit :=
  match (_ <- method ;;
         fun h' => if _finished h' then (h', Ok tt) else finish None h') h with
  | (h', Raise e) => send_error 500 h'
  | r => r
  end.

End Methods.

End RequestHandler.

Module TemplatesHandler.
Import RequestHandler.

Section Handler.
Context {L : Type}.

Variable sha1_hex : list chunk -> string.

(** [self.loader.get_template(temp, self.contents_manager)] of whichever
    loader the handler holds. *)
Variable get_template : string -> M L Data.t.

Definition get_body : M (self L) unit :=
  temp <- get_argument "" ;;
  _ <- (if negb (String.eqb temp "") then
          data <- on_loader (get_template temp) ;;
          finish sha1_hex (Some (JsonRecord data))
        else ret tt) ;;
  set_status 404.

Definition get : M (self L) unit :=
  authenticated sha1_hex get_body.

(** The response the client receives. *)
Definition respond (req : HTTPServerRequest) (l : L) : option response :=
  sent (fst (execute sha1_hex get (fresh req l))).

End Handler.
End TemplatesHandler.

Module TemplateNamesHandler.
Import RequestHandler.

Section Handler.
Context {L : Type}.

Variable sha1_hex : list chunk -> string.
Variable get_templates : M L (gmap string (list Entry.t)).
Variable template_label : L -> string.

Definition get_body : M (self L) unit :=
  templates <- on_loader get_templates ;;
  label <- on_loader (attr template_label) ;;
  finish sha1_hex (Some (JsonNames templates label)).

Definition get : M (self L) unit :=
  authenticated sha1_hex get_body.

Definition respond (req : HTTPServerRequest) (l : L) : option response :=
  sent (fst (execute sha1_hex get (fresh req l))).

End Handler.
End TemplateNamesHandler.

(** ** load_jupyter_server_extension *)

Module Extension.

(** The value of [template_dirs] in the configuration: the local enumerator
    is written for a list of paths, the store-backed one for a dict from group
    name to path (given here by its items). *)
Inductive dirs_value : Type :=
| DirsList (paths : list string)
| DirsDict (items : list (string * string)).

(** The section [JupyterLabTemplates] of the configuration; [None] for a key
    that is not set. *)
Record config : Type := {
  cfg_template_dirs : option dirs_value;
  cfg_local_files : option bool;
  cfg_allowed_extensions : option (list string);
  cfg_include_default : option bool;
  cfg_include_core_paths : option bool;
  cfg_template_label : option string;
}.

(** The loader object the handlers are given. The constructors store
    [template_dirs] as it comes, so each class can end up over a list or over
    a dict; the label and the patterns are those the constructor computes.
    The roots are recorded with the value the list has when the loader is
    installed. In the program the loader holds the list object itself, which
    it shares with the configuration when the key is set: a later run of the
    function changes that object, and with it the roots of the loaders
    installed before. [app_handlers] therefore says what each run installed;
    the list as it is after a run is the one of [app_config]. *)
Inductive loader : Type :=
| LocalLoader (self : TemplatesLoader.self)
| LocalLoaderOverDict (items : list (string * string)) (self : TemplatesLoader.self)
| StoreLoader (self : ContentsManagerTemplatesLoader.self)
| StoreLoaderOverList (paths : list string) (self : ContentsManagerTemplatesLoader.self).

Inductive handler_class : Type := TemplateNamesHandler | TemplatesHandler.

(** An entry of [web_app.add_handlers]. *)
Record route : Type := {
  route_host : string;
  route_url : string;
  route_handler : handler_class;
  route_loader : loader;
}.

Inductive startup_error : Type :=
| AttributeError (attribute : string)   (* a dict has no insert or extend *)
| SettingsKeyError (key : string).      (* web_app.settings has no base_url *)

Record app : Type := {
  app_config : config;
  (* web_app.settings.get("base_url") *)
  app_base_url : option string;
  (* what add_handlers has been given, in order *)
  app_handlers : list route;
}.

Section WithEnvironment.

(** [os.path.dirname(__file__)] *)
Variable module_dir : string.
(** [jupyter_core.paths.jupyter_path()] *)
Variable jupyter_path : list string.
(** [jupyter_server.utils.url_path_join] *)
Variable url_path_join : string -> string -> string.

(** The list object of the configuration is the one the function changes:
    after [insert] or [extend] the configuration holds the new value, unless
    the key was not set and the list was the fresh default. *)
Definition store_dirs (c : config) (dirs : dirs_value) : config :=
  match cfg_template_dirs c with
  | None => c
  | Some _ =>
      {| cfg_template_dirs := Some dirs;
         cfg_local_files := cfg_local_files c;
         cfg_allowed_extensions := cfg_allowed_extensions c;
         cfg_include_default := cfg_include_default c;
         cfg_include_core_paths := cfg_include_core_paths c;
         cfg_template_label := cfg_template_label c |}
  end.

Definition with_config (a : app) (c : config) : app :=
  {| app_config := c; app_base_url := app_base_url a; app_handlers := app_handlers a |}.

Definition default_dir : string := OsPath.join module_dir "templates".

Definition core_dirs : list string :=
  map (fun x => OsPath.join x "notebook_templates") jupyter_path.

Definition make_loader (local : bool) (dirs : dirs_value)
    (allowed_extensions : list string) (template_label : string) : loader :=
  match local, dirs with
  | true, DirsList paths =>
      LocalLoader (TemplatesLoader.__init__ paths (Some allowed_extensions)
                     (Some template_label))
  | true, DirsDict items =>
      LocalLoaderOverDict items
        (TemplatesLoader.__init__ (map fst items) (Some allowed_extensions)
           (Some template_label))
  | false, DirsDict items =>
      StoreLoader (ContentsManagerTemplatesLoader.__init__ items (Some template_label)
                     (Some allowed_extensions) true)
  | false, DirsList paths =>
      StoreLoaderOverList paths
        (ContentsManagerTemplatesLoader.__init__ [] (Some template_label)
           (Some allowed_extensions) true)
  end.

Definition load_jupyter_server_extension (a : app) : app * option startup_error :=
  let c := app_config a in
  let template_dirs := default (DirsList []) (cfg_template_dirs c) in
  let local_files := default true (cfg_local_files c) in
  let allowed_extensions := default ["*.ipynb"] (cfg_allowed_extensions c) in
  (* template_dirs.insert(0, ...) *)
  match
    (if default local_files (cfg_include_default c) then
       match template_dirs with
       | DirsList paths => inr (DirsList (default_dir :: paths))
       | DirsDict _ => inl (AttributeError "insert")
       end
     else inr template_dirs)
  with
  | inl e => (a, Some e)
  | inr template_dirs =>
      match app_base_url a with
      | None => (with_config a (store_dirs c template_dirs), Some (SettingsKeyError "base_url"))
      | Some base_url =>
          let host_pattern := ".*$" in
          (* template_dirs.extend(...) *)
          match
            (if default local_files (cfg_include_core_paths c) then
               match template_dirs with
               | DirsList paths => inr (DirsList (paths ++ core_dirs))
               | DirsDict _ => inl (AttributeError "extend")
               end
             else inr template_dirs)
          with
          | inl e => (with_config a (store_dirs c template_dirs), Some e)
          | inr template_dirs =>
              let template_label := default "Template" (cfg_template_label c) in
              let loader :=
                make_loader (default true (cfg_local_files c)) template_dirs
                  allowed_extensions template_label in
              ({| app_config := store_dirs c template_dirs;
                  app_base_url := app_base_url a;
                  app_handlers :=
                    app_handlers a
                    ++ [ {| route_host := host_pattern;
                            route_url := url_path_join base_url "templates/names";
                            route_handler := TemplateNamesHandler;
                            route_loader := loader |} ]
                    ++ [ {| route_host := host_pattern;
                            route_url := url_path_join base_url "templates/get";
                            route_handler := TemplatesHandler;
                            route_loader := loader |} ] |},
               None)
          end
      end
  end.

End WithEnvironment.

End Extension.

(** * The vocabulary of the properties *)

(** ** Files listed by the local enumerator *)

(** The file [filename] of the walked directory [dirname] passes the
    filters of the walk of [root]. *)
Definition listed_file (fnmatch : string -> string -> bool) (fs : filesystem)
    (exts : list string) (root dirname filename : string) : Prop :=
  exists dirnames filenames,
    (dirname, dirnames, filenames) ∈ walk fs root /\
    dirname <> root /\
    (TEMPLATES_IGNORE_FILE ∉ filenames) /\
    filename ∈ filenames /\
    existsb (fun y => fnmatch filename y) exts = true /\
    Str.contains ".ipynb_checkpoints" dirname = false.

(** The record built for such a file once it has been read. *)
Definition record_of (root dirname filename content : string) : Data.t :=
  Data.mk (OsPath.join dirname filename)
          (OsPath.join (Str.replace root "" dirname) filename)
          (Str.replace root "" dirname) filename content.

(** A record that stands for a file found by the walk of one of the roots
    and read from it. *)
Definition sourced (fnmatch : string -> string -> bool) (fs : filesystem)
    (exts roots : list string) (d : Data.t) : Prop :=
  exists root dirname filename content,
    root ∈ roots /\
    listed_file fnmatch fs exts root dirname filename /\
    fs_read fs (OsPath.join (fs_parent fs root) (OsPath.join dirname filename))
      = ReadOk content /\
    d = record_of root dirname filename content.

(** Pushing a name into its group, as [load] does. *)
Definition push (group : string) (e : Entry.t) (templates : gmap string (list Entry.t))
    : gmap string (list Entry.t) :=
  alter (fun l => l ++ [e]) group
    match templates !! group with
    | None => <[group := []]> templates
    | Some _ => templates
    end.

(** What holds of the two dicts all along the loops of [_old]. *)
Definition consistent (fnmatch : string -> string -> bool) (fs : filesystem)
    (exts roots : list string)
    (st : gmap string (list Entry.t) * gmap string Data.t) : Prop :=
  (forall k d, snd st !! k = Some d ->
     Data.name d = k /\ sourced fnmatch fs exts roots d /\
     exists l, fst st !! Str.strip OsPath.sep (Data.dirname d) = Some l /\
               Entry.mk k ∈ l) /\
  (forall g l, fst st !! g = Some l ->
     l <> [] /\
     forall e, e ∈ l ->
       is_Some (snd st !! Entry.name e) /\
       exists d, sourced fnmatch fs exts roots d /\ Data.name d = Entry.name e /\
                 Str.strip OsPath.sep (Data.dirname d) = g).

(** The name [e] is listed in the group [g] and has a record. *)
Definition has_entry (g : string) (e : Entry.t)
    (st : gmap string (list Entry.t) * gmap string Data.t) : Prop :=
  (exists l, fst st !! g = Some l /\ e ∈ l) /\ is_Some (snd st !! Entry.name e).

(** ** Directories reached by the walk *)

(** [walks_to top d dirname node]: walking [d] from [top], the walk comes to
    the directory [node] under the name [dirname]. *)
Inductive walks_to : string -> dir -> string -> dir -> Prop :=
| walks_here top d : walks_to top d top d
| walks_down top d name sub dirname node :
    (name, sub) ∈ dir_subdirs d ->
    walks_to (OsPath.join top name) sub dirname node ->
    walks_to top d dirname node.

(** A name a directory entry can have: not empty, no slash. *)
Definition valid_name (name : string) : bool :=
  negb (String.eqb name "") && negb (Str.contains "/" name).

Fixpoint valid_tree (d : dir) : bool :=
  match d with
  | Dir filenames subdirs =>
      forallb valid_name filenames &&
      forallb (fun entry => valid_name (fst entry) && valid_tree (snd entry)) subdirs
  end.

(** The files the walk of a subtree collects. *)
Definition subtree_files (fnmatch : string -> string -> bool) (root : string)
    (exts : list string) (dirname : string) (node : dir) : list (string * string * string) :=
  flat_map (TemplatesLoader.dir_files fnmatch root exts) (os_walk dirname node).

(** ** Directories of the content store *)

(** The children of a directory listing by their ["type"]. *)
Definition is_directory (x : Model.t) : bool := bool_decide (Model.type x = "directory").

Definition is_notebook (x : Model.t) : bool := bool_decide (Model.type x = "notebook").

Definition child_dirs (content : list Model.t) : list string :=
  map Model.path (List.filter is_directory content).

Definition child_notebooks (content : list Model.t) : list string :=
  map Model.path (List.filter is_notebook content).

(** [reachable cm root d]: the directory [d] is the root or is listed, as a
    child typed ["directory"], by a directory reachable from the root. *)
Inductive reachable (cm : contents_manager) (root : string) : string -> Prop :=
| reachable_root : reachable cm root root
| reachable_child d content x :
    reachable cm root d ->
    cm_directory cm d = Some content ->
    x ∈ content ->
    Model.type x = "directory" ->
    reachable cm root (Model.path x).

(** The part of a store below a directory, when it is a finite tree: the
    path of the directory, its listing, and the trees of its children typed
    ["directory"], in the order of the listing. *)
#[warning="-register-all"]
Inductive tree : Type :=
| Node (path : string) (content : list Model.t) (children : list tree).

Definition tree_path (t : tree) : string :=
  match t with Node path _ _ => path end.

(** The paths of the directories of a tree. *)
Fixpoint tree_dirs (t : tree) : list string :=
  match t with
  | Node path _ children => path :: flat_map tree_dirs children
  end.

(** The paths of the children typed ["notebook"] of the directories of a
    tree. *)
Fixpoint tree_notebooks (t : tree) : list string :=
  match t with
  | Node _ content children => child_notebooks content ++ flat_map tree_notebooks children
  end.

(** The store answers as the tree says: every directory of the tree can be
    listed, with the listing of its node, and its directory children are the
    children of the node. *)
#[warning="-register-all"]
Inductive describes (cm : contents_manager) : tree -> Prop :=
| describes_node path content children :
    cm_directory cm path = Some content ->
    map tree_path children = child_dirs content ->
    Forall (describes cm) children ->
    describes cm (Node path content children).

(** What [set.pop()] guarantees: an element of the set, when there is one. *)
Definition pop_chooses (pop : list string -> gset string -> option string) : Prop :=
  forall listed s, s <> ∅ -> exists x, pop listed s = Some x /\ x ∈ s.

(** The store below the root of a group is the tree [t]; the store is
    hierarchical, so no two directories of the tree have the same path; and
    [fuel] rounds of the loop are enough for its directories. *)
Definition group_tree (cm : contents_manager) (fuel : nat)
    (group : string * string) (t : tree) : Prop :=
  tree_path t = snd group /\
  describes cm t /\
  NoDup (tree_dirs t) /\
  length (tree_dirs t) <= fuel.

(** ** The parameter of a request *)

(** A value [get_argument] hands on as it is has no control character and no
    whitespace at either end. *)
Fixpoint no_control_char (s : string) : bool :=
  match s with
  | EmptyString => true
  | String c rest => negb (RequestHandler.control_char c) && no_control_char rest
  end.

Definition first_char_in (chars s : string) : bool :=
  match s with
  | EmptyString => false
  | String c _ => Str.mem_char c chars
  end.

Fixpoint last_char_in (chars s : string) : bool :=
  match s with
  | EmptyString => false
  | String c EmptyString => Str.mem_char c chars
  | String _ rest => last_char_in chars rest
  end.

(** ** Further vocabulary *)

(** The paths the walk of the roots opens, in order. *)
Definition candidates (fnmatch : string -> string -> bool) (fs : filesystem)
    (exts roots : list string) : list string :=
  flat_map
    (fun root =>
       map (fun file => OsPath.join (fs_parent fs root) (fst (fst file)))
           (TemplatesLoader.scan fnmatch fs exts root))
    roots.

Definition flat_root (fs : filesystem) (root : string) : Prop :=
  fs_tree fs root = None \/ exists filenames, fs_tree fs root = Some (Dir filenames []).

(** The record of a candidate, when its file can be read. *)
Definition read_record (fs : filesystem) (abspath : string)
    (file : string * string * string) : list Data.t :=
  let '(f, dirname, filename) := file in
  match fs_read fs (OsPath.join abspath f) with
  | ReadOk content => [Data.mk f (OsPath.join dirname filename) dirname filename content]
  | _ => []
  end.

(** The records of the files the walk of the roots reads, in the order in
    which it reads them. *)
Definition loaded (fnmatch : string -> string -> bool) (fs : filesystem)
    (exts roots : list string) : list Data.t :=
  flat_map
    (fun root =>
       flat_map (read_record fs (fs_parent fs root)) (TemplatesLoader.scan fnmatch fs exts root))
    roots.

Definition group_of (d : Data.t) : string := Str.strip OsPath.sep (Data.dirname d).

(** The names of the records of a group, in order. *)
Definition names_of_group (g : string) (ds : list Data.t) : list Entry.t :=
  map (fun d => Entry.mk (Data.name d)) (List.filter (fun d => String.eqb (group_of d) g) ds).

(** The last record of a name. *)
Definition record_named (k : string) (ds : list Data.t) : option Data.t :=
  last (List.filter (fun d => String.eqb (Data.name d) k) ds).

(** The two dicts hold exactly the records [ds]. *)
Definition holds (ds : list Data.t)
    (st : gmap string (list Entry.t) * gmap string Data.t) : Prop :=
  (forall g, fst st !! g =
             match names_of_group g ds with [] => None | l => Some l end) /\
  (forall k, snd st !! k = record_named k ds).

(** [b] is listed by the directory [a] as a child typed ["directory"]. *)
Definition child (cm : contents_manager) (a b : string) : Prop :=
  exists content x,
    cm_directory cm a = Some content /\ x ∈ content /\
    Model.type x = "directory" /\ Model.path x = b.

(** The directory [d] is on a cycle of the store. *)
Definition on_cycle (cm : contents_manager) (d : string) : Prop :=
  exists c, child cm d c /\ reachable cm c d.

(** The two flags as the function reads them: when not set they follow
    [local_files]. *)
Definition include_default_on (c : Extension.config) : bool :=
  default (default true (Extension.cfg_local_files c)) (Extension.cfg_include_default c).

Definition include_core_paths_on (c : Extension.config) : bool :=
  default (default true (Extension.cfg_local_files c)) (Extension.cfg_include_core_paths c).

(** The roots of the local loader for the configured [paths]. *)
Definition search_path (module_dir : string) (jupyter_path : list string)
    (c : Extension.config) (paths : list string) : list string :=
  (if include_default_on c then [Extension.default_dir module_dir] else [])
  ++ paths
  ++ (if include_core_paths_on c then Extension.core_dirs jupyter_path else []).

(** * Example inputs *)

(** UTF-8 on bytes below 128, each of which stands for the character of the
    same code; the files of the examples have no other byte, and this decoder
    refuses them. *)
Definition decode_ascii (bytes : string) : option string :=
  if forallb (fun c => Nat.ltb (nat_of_ascii c) 128) (list_ascii_of_string bytes)
  then Some bytes else None.

(** A root [/t] with a file of its own, a directory [a] with a notebook and
    a text file and an empty subdirectory [b], a directory [c] that holds the
    ignore file and has a subdirectory [d], and a directory [e] without any
    notebook. *)
Definition tree_example : dir :=
  Dir ["top.ipynb"]
      [("a", Dir ["x.ipynb"; "notes.txt"] [("b", Dir [] [])]);
       ("c", Dir [".jupyterlab_templates_ignore"; "z.ipynb"] [("d", Dir ["w.ipynb"] [])]);
       ("e", Dir ["readme.txt"] [])].

Definition fs_example : filesystem := {|
  fs_tree := fun p => if String.eqb p "/t" then Some tree_example else None;
  fs_parent := fun _ => "/";
  fs_open := fun p =>
    if String.eqb p "/t/top.ipynb" then OpenOk "top"
    else if String.eqb p "/t/a/x.ipynb" then OpenOk "{}"
    else if String.eqb p "/t/c/z.ipynb" then OpenOk "z"
    else if String.eqb p "/t/c/d/w.ipynb" then OpenOk "w"
    else OpenSkip;
  utf8_decode := decode_ascii |}.

Definition loader_example : TemplatesLoader.self :=
  TemplatesLoader.__init__ ["/t"] None None.

(** The catalog of that file system. *)
Definition catalog_example : gmap string (list Entry.t) :=
  <["a" := [Entry.mk "/a/x.ipynb"]]> (<["c/d" := [Entry.mk "/c/d/w.ipynb"]]> ∅).

(** A directory [a] with a regular file named [.ipynb_checkpoints], listed
    with the pattern [*]. *)
Definition fs_checkpoint : filesystem := {|
  fs_tree := fun p =>
    if String.eqb p "/t" then Some (Dir [] [("a", Dir [".ipynb_checkpoints"] [])]) else None;
  fs_parent := fun _ => "/";
  fs_open := fun p =>
    if String.eqb p "/t/a/.ipynb_checkpoints" then OpenOk "text" else OpenSkip;
  utf8_decode := decode_ascii |}.

Definition loader_checkpoint : TemplatesLoader.self :=
  TemplatesLoader.__init__ ["/t"] (Some ["*"]) None.





(** A store with a root [r], two directories below it and three notebooks. *)
Definition cm_example : contents_manager := {|
  cm_directory path :=
    if String.eqb path "r" then
      Some [Model.mk "directory" "r/a"; Model.mk "notebook" "r/n.ipynb";
            Model.mk "file" "r/readme.md"; Model.mk "directory" "r/b"]
    else if String.eqb path "r/a" then Some [Model.mk "notebook" "r/a/m.ipynb"]
    else if String.eqb path "r/b" then Some [Model.mk "notebook" "r/b/k.ipynb"]
    else None;
  cm_notebook path := None
|}.

(** That store as a tree. *)
Definition store_example : tree :=
  Node "r"
    [Model.mk "directory" "r/a"; Model.mk "notebook" "r/n.ipynb";
     Model.mk "file" "r/readme.md"; Model.mk "directory" "r/b"]
    [Node "r/a" [Model.mk "notebook" "r/a/m.ipynb"] [];
     Node "r/b" [Model.mk "notebook" "r/b/k.ipynb"] []].

(** Two orders for [set.pop()]: the first and the last element of the set as
    it is enumerated. *)
Definition pop_first (listed : list string) (s : gset string) : option string :=
  head (elements s).

Definition pop_last (listed : list string) (s : gset string) : option string :=
  last (elements s).

Definition cm_loader_example : ContentsManagerTemplatesLoader.self :=
  ContentsManagerTemplatesLoader.__init__ [("g", "r")] None None true.

(** A root with two notebooks, one of which holds a byte that is no UTF-8. *)
Definition fs_undecodable : filesystem := {|
  fs_tree := fun p =>
    if String.eqb p "/t" then Some (Dir [] [("a", Dir ["bad.ipynb"; "x.ipynb"] [])]) else None;
  fs_parent := fun _ => "/";
  fs_open := fun p =>
    if String.eqb p "/t/a/bad.ipynb" then OpenOk (String "255" "")
    else if String.eqb p "/t/a/x.ipynb" then OpenOk "{}"
    else OpenSkip;
  utf8_decode := decode_ascii |}.

(** A root that holds notebooks but no directory. *)
Definition fs_flat : filesystem := {|
  fs_tree := fun p =>
    if String.eqb p "/flat" then Some (Dir ["top.ipynb"] [])
    else fs_tree fs_example p;
  fs_parent := fun _ => "/";
  fs_open := fun p =>
    if String.eqb p "/flat/top.ipynb" then OpenOk "{}" else fs_open fs_example p;
  utf8_decode := decode_ascii |}.

(** Two roots with a notebook of the same relative path. *)
Definition fs_two_roots : filesystem := {|
  fs_tree := fun p =>
    if String.eqb p "/u" then Some (Dir [] [("a", Dir ["x.ipynb"] [])])
    else if String.eqb p "/v" then Some (Dir [] [("a", Dir ["x.ipynb"] [])])
    else None;
  fs_parent := fun _ => "/";
  fs_open := fun p =>
    if String.eqb p "/u/a/x.ipynb" then OpenOk "first"
    else if String.eqb p "/v/a/x.ipynb" then OpenOk "second"
    else OpenSkip;
  utf8_decode := decode_ascii |}.

Definition loader_two_roots : TemplatesLoader.self :=
  TemplatesLoader.__init__ ["/u"; "/v"] None None.

Definition catalog_two_roots : gmap string (list Entry.t) :=
  <["a" := [Entry.mk "/a/x.ipynb"; Entry.mk "/a/x.ipynb"]]> ∅.

(** A store whose directory [r/a] lists the root [r] again (a link back). *)
Definition cm_cycle : contents_manager := {|
  cm_directory path :=
    if String.eqb path "r" then Some [Model.mk "directory" "r/a"]
    else if String.eqb path "r/a" then Some [Model.mk "directory" "r"]
    else None;
  cm_notebook path := None
|}.

(** A store whose root has no notebook. *)
Definition cm_empty_group : contents_manager := {|
  cm_directory path :=
    if String.eqb path "e" then Some [Model.mk "file" "e/readme.md"] else None;
  cm_notebook path := None
|}.

(** An application configured with two local roots. *)
Definition app_example : Extension.app := {|
  Extension.app_config := {|
    Extension.cfg_template_dirs := Some (Extension.DirsList ["/srv/one"; "/srv/two"]);
    Extension.cfg_local_files := None;
    Extension.cfg_allowed_extensions := None;
    Extension.cfg_include_default := None;
    Extension.cfg_include_core_paths := None;
    Extension.cfg_template_label := None |};
  Extension.app_base_url := Some "/";
  Extension.app_handlers := [] |}.

(** An application configured for the store-backed enumerator, with nothing
    else set. *)
Definition app_store_example : Extension.app := {|
  Extension.app_config := {|
    Extension.cfg_template_dirs := Some (Extension.DirsDict [("g", "r")]);
    Extension.cfg_local_files := Some false;
    Extension.cfg_allowed_extensions := None;
    Extension.cfg_include_default := None;
    Extension.cfg_include_core_paths := None;
    Extension.cfg_template_label := None |};
  Extension.app_base_url := Some "/";
  Extension.app_handlers := [] |}.

(** The same with the default templates asked for. *)
Definition app_store_with_default : Extension.app := {|
  Extension.app_config := {|
    Extension.cfg_template_dirs := Some (Extension.DirsDict [("g", "r")]);
    Extension.cfg_local_files := Some false;
    Extension.cfg_allowed_extensions := None;
    Extension.cfg_include_default := Some true;
    Extension.cfg_include_core_paths := None;
    Extension.cfg_template_label := None |};
  Extension.app_base_url := Some "/";
  Extension.app_handlers := [] |}.

Definition url_join_example (a b : string) : string := (a ++ b)%string.

(** A stand-in for [hashlib.sha1] in the examples: it tells the empty body
    from the others. *)
Definition sha1_example (buffer : list chunk) : string :=
  match buffer with
  | [] => "da39a3ee5e6b4b0d3255bfef95601890afd80709"
  | _ => "2ef7bde608ce5404e97d5f042f95f89f1c232871"
  end.

(** An [If-None-Match] header with two entity tags, the second one the ETag of
    a body that is not empty under the stand-in, given as a weak tag. *)
Definition if_none_match_example : string :=
  String RequestHandler.quote
    ("0000" ++ String RequestHandler.quote
       (", W/" ++ String RequestHandler.quote
          ("2ef7bde608ce5404e97d5f042f95f89f1c232871" ++ String RequestHandler.quote ""))).

(** * Properties *)

(** ** The monad and the loops *)

Section MonadFacts.
Context {S : Type}.

Lemma read_only_ret {A} (a : A) : read_only (S:=S) (ret a).
Proof. intros s. reflexivity. Qed.

Lemma read_only_attr {A} (proj : S -> A) : read_only (attr proj).
Proof. intros s. reflexivity. Qed.

Lemma read_only_lift {A} (r : result A) : read_only (S:=S) (lift r).
Proof. intros s. reflexivity. Qed.

Lemma read_only_bind {A B} (m : M S A) (f : A -> M S B) :
  read_only m -> (forall a, read_only (f a)) -> read_only (bind m f).
Proof.
  intros Hm Hf s. unfold bind. specialize (Hm s).
  destruct (m s) as [s' [a | e |]]; simpl in *; subst; auto.
  apply Hf.
Qed.

End MonadFacts.

Lemma for_each_invariant {A X} (P : A -> Prop) (body : A -> X -> result A) (xs : list X) :
  (forall acc x acc', x ∈ xs -> P acc -> body acc x = Ok acc' -> P acc') ->
  forall acc acc', P acc -> for_each body xs acc = Ok acc' -> P acc'.
Proof.
  induction xs as [| x xs IH]; intros Hbody acc acc' Hacc Hrun; simpl in Hrun.
  - congruence.
  - destruct (body acc x) as [mid | e |] eqn:Hx; simpl in Hrun; try discriminate.
    apply (IH (fun a y a' Hy => Hbody a y a' (list_elem_of_further _ _ _ Hy)) mid acc'); auto.
    apply (Hbody acc x mid); auto. left.
Qed.

Lemma for_each_app {A X} (body : A -> X -> result A) (xs ys : list X) (acc : A) :
  for_each body (xs ++ ys) acc = result_bind (for_each body xs acc) (for_each body ys).
Proof.
  revert acc. induction xs as [| x xs IH]; intros acc; simpl; [reflexivity |].
  destruct (body acc x); simpl; auto.
Qed.

(** ** Reading a file *)



(** ** The local enumerator: where listed files come from *)

Section LocalEnumerator.

Variable fnmatch : string -> string -> bool.
Variable fs : filesystem.
Variable exts : list string.

Local Abbreviation listed_file := (listed_file fnmatch fs exts).
Local Abbreviation sourced := (sourced fnmatch fs exts).
Local Abbreviation consistent := (consistent fnmatch fs exts).



Lemma dir_files_spec root f rel filename entry :
  (f, rel, filename) ∈ TemplatesLoader.dir_files fnmatch root exts entry <->
  exists dirname dirnames filenames,
    entry = (dirname, dirnames, filenames) /\
    dirname <> root /\
    (TEMPLATES_IGNORE_FILE ∉ filenames) /\
    filename ∈ filenames /\
    existsb (fun y => fnmatch filename y) exts = true /\
    Str.contains ".ipynb_checkpoints" dirname = false /\
    f = OsPath.join dirname filename /\
    rel = Str.replace root "" dirname.
Proof.
  destruct entry as [[dirname dirnames] filenames].
  unfold TemplatesLoader.dir_files.
  destruct (decide (dirname = root)) as [Heq | Hne].
  { split; [intros H; inversion H |].
    intros (dn & ds & fns & [= -> -> ->] & Hd & _). contradiction. }
  destruct (decide (TEMPLATES_IGNORE_FILE ∈ filenames)) as [Hin | Hout].
  { split; [intros H; inversion H |].
    intros (dn & ds & fns & [= -> -> ->] & _ & Hd & _). contradiction. }
  rewrite list_elem_of_In, in_flat_map. split.
  - intros (x & Hx & Hf). apply filter_In in Hx as [Hx Hm].
    destruct (Str.contains ".ipynb_checkpoints" dirname) eqn:Hc; simpl in Hf.
    + contradiction.
    + destruct Hf as [[= <- <- <-] | []].
      exists dirname, dirnames, filenames.
      split_and!; try done. by apply list_elem_of_In.
  - intros (dn & ds & fns & [= <- <- <-] & _ & _ & Hx & Hm & Hc & -> & ->).
    exists filename. split.
    + apply filter_In. split; [by apply list_elem_of_In | done].
    + rewrite Hc. simpl. auto.
Qed.

Lemma scan_spec root f rel filename :
  (f, rel, filename) ∈ TemplatesLoader.scan fnmatch fs exts root <->
  exists dirname,
    listed_file root dirname filename /\
    f = OsPath.join dirname filename /\
    rel = Str.replace root "" dirname.
Proof.
  unfold TemplatesLoader.scan.
  rewrite list_elem_of_In, in_flat_map. split.
  - intros (entry & Hentry & Hf).
    apply list_elem_of_In, dir_files_spec in Hf
      as (dn & ds & fns & -> & H1 & H2 & H3 & H4 & H5 & H6 & H7).
    exists dn. split; [| auto].
    exists ds, fns. split_and!; try done. by apply list_elem_of_In.
  - intros (dn & (ds & fns & Hw & H1 & H2 & H3 & H4 & H5) & H6 & H7).
    exists (dn, ds, fns). split; [apply list_elem_of_In, Hw |].
    apply list_elem_of_In, dir_files_spec.
    exists dn, ds, fns. split_and!; done.
Qed.


Lemma push_lookup group e (templates : gmap string (list Entry.t)) g :
  push group e templates !! g =
  if decide (group = g) then Some (default [] (templates !! group) ++ [e])
  else templates !! g.
Proof.
  unfold push. destruct (decide (group = g)) as [<- | Hne].
  - rewrite lookup_alter. rewrite decide_True by reflexivity.
    destruct (templates !! group) as [l |] eqn:Hl; simpl.
    + rewrite Hl. reflexivity.
    + rewrite lookup_insert_eq. reflexivity.
  - rewrite lookup_alter_ne by assumption.
    destruct (templates !! group) eqn:Hl; [reflexivity |].
    rewrite lookup_insert_ne by assumption. reflexivity.
Qed.

Lemma load_ok abspath templates index f rel filename content :
  fs_read fs (OsPath.join abspath f) = ReadOk content ->
  TemplatesLoader.load fs abspath (templates, index) (f, rel, filename) =
  Ok (push (Str.strip OsPath.sep rel) (Entry.mk (OsPath.join rel filename)) templates,
      <[OsPath.join rel filename := Data.mk f (OsPath.join rel filename) rel filename content]>
        index).
Proof. intros Hread. unfold TemplatesLoader.load, push. rewrite Hread. reflexivity. Qed.

Section Invariant.

Variable roots : list string.

Local Abbreviation sourced := (sourced roots).
Local Abbreviation consistent := (consistent roots).



Lemma consistent_empty : consistent (∅, ∅).
Proof.
  split; simpl; intros ? ? H; rewrite lookup_empty in H; discriminate.
Qed.

Lemma load_consistent root st file st' :
  root ∈ roots ->
  file ∈ TemplatesLoader.scan fnmatch fs exts root ->
  consistent st ->
  TemplatesLoader.load fs (fs_parent fs root) st file = Ok st' ->
  consistent st'.
Proof.
  intros Hroot Hfile Hst Hload.
  destruct st as [templates index], file as [[f rel] filename].
  apply scan_spec in Hfile as (dirname & Hlisted & -> & ->).
  destruct (fs_read fs (OsPath.join (fs_parent fs root) (OsPath.join dirname filename)))
    as [content | |] eqn:Hread.
  2: { unfold TemplatesLoader.load in Hload. rewrite Hread in Hload. congruence. }
  2: { unfold TemplatesLoader.load in Hload. rewrite Hread in Hload. discriminate. }
  rewrite (load_ok _ _ _ _ _ _ _ Hread) in Hload. injection Hload as <-.
  set (rel := Str.replace root "" dirname) in *.
  set (data := Data.mk _ _ _ _ _).
  assert (Hdata : sourced data).
  { exists root, dirname, filename, content. auto. }
  destruct Hst as [Hindex Hgroups]. simpl in Hindex, Hgroups.
  split; simpl.
  - intros k d Hk. rewrite lookup_insert in Hk.
    destruct (decide (OsPath.join rel filename = k)) as [<- | Hne].
    + injection Hk as <-. split; [reflexivity |]. split; [assumption |].
      rewrite push_lookup. simpl. rewrite decide_True by reflexivity.
      eexists. split; [reflexivity |]. apply elem_of_app. right. left.
    + destruct (Hindex k d Hk) as (Hname & Hsrc & l & Hl & Hin).
      split; [assumption |]. split; [assumption |].
      rewrite push_lookup. case_decide as Hg.
      * rewrite Hg, Hl. simpl. eexists. split; [reflexivity |].
        apply elem_of_app. left. assumption.
      * eauto.
  - intros g l Hg. rewrite push_lookup in Hg.
    destruct (decide (Str.strip OsPath.sep rel = g)) as [<- | Hne].
    + injection Hg as <-. split.
      { destruct (default [] _); discriminate. }
      intros e [He | He%list_elem_of_singleton]%elem_of_app.
      * destruct (templates !! Str.strip OsPath.sep rel) as [l0 |] eqn:Hl0;
          simpl in He; [| inversion He].
        destruct (Hgroups _ _ Hl0) as [_ Hall].
        destruct (Hall e He) as [Hsome Hsrc]. split; [| assumption].
        rewrite lookup_insert. case_decide; eauto.
      * subst e. simpl. split.
        { rewrite lookup_insert_eq. eauto. }
        exists data. auto.
    + destruct (Hgroups g l Hg) as [Hnil Hall]. split; [assumption |].
      intros e He. destruct (Hall e He) as [Hsome Hsrc]. split; [| assumption].
      rewrite lookup_insert. case_decide; eauto.
Qed.

Lemma load_root_consistent root st st' :
  root ∈ roots ->
  consistent st ->
  TemplatesLoader.load_root fnmatch fs exts st root = Ok st' ->
  consistent st'.
Proof.
  intros Hroot Hst Hrun. unfold TemplatesLoader.load_root in Hrun.
  revert Hrun. apply for_each_invariant with (P := consistent); [| assumption].
  intros acc file acc' Hfile Hacc Hload.
  eapply load_consistent; eauto.
Qed.

End Invariant.

Lemma for_each_load_root_consistent roots st :
  for_each (TemplatesLoader.load_root fnmatch fs exts) roots (∅, ∅) = Ok st ->
  consistent roots st.
Proof.
  apply for_each_invariant with (P := consistent roots).
  - intros acc root acc' Hroot Hacc Hrun. eapply load_root_consistent; eauto.
  - apply consistent_empty.
Qed.

End LocalEnumerator.

(** ** The walk *)

Lemma string_length_app (a b : string) :
  String.length (a ++ b) = String.length a + String.length b.
Proof. induction a as [| c a IH]; simpl; [reflexivity | rewrite IH; reflexivity]. Qed.

Lemma contains_false_prefix sub s :
  Str.contains sub s = false -> String.prefix sub s = false.
Proof. destruct s; simpl; intros H; apply orb_false_iff in H as [H _]; exact H. Qed.

Lemma join_longer a name :
  valid_name name = true -> String.length a < String.length (OsPath.join a name).
Proof.
  unfold valid_name. intros [Hne Hslash]%andb_true_iff.
  apply negb_true_iff in Hne, Hslash.
  apply contains_false_prefix in Hslash.
  unfold OsPath.join, Str.startswith, OsPath.sep. rewrite Hslash.
  assert (0 < String.length name).
  { destruct name; [discriminate | simpl; lia]. }
  destruct (_ || _)%bool; rewrite !string_length_app; simpl; lia.
Qed.

Lemma walks_to_walk top d dirname node :
  walks_to top d dirname node ->
  (dirname, map fst (dir_subdirs node), dir_filenames node) ∈ os_walk top d.
Proof.
  induction 1 as [top [filenames subdirs] | top [filenames subdirs] name sub dirname node Hsub _ IH].
  - simpl. left.
  - simpl in *. right. apply list_elem_of_In, in_flat_map.
    exists (name, sub). split; [by apply list_elem_of_In |].
    by apply list_elem_of_In.
Qed.

Lemma valid_tree_subdir filenames subdirs name sub :
  valid_tree (Dir filenames subdirs) = true ->
  (name, sub) ∈ subdirs ->
  valid_name name = true /\ valid_tree sub = true.
Proof.
  simpl. intros [_ Hsubs]%andb_true_iff Hin.
  rewrite forallb_forall in Hsubs.
  apply list_elem_of_In, Hsubs, andb_true_iff in Hin. exact Hin.
Qed.

(** Below the top, every directory of the walk has a longer name than the
    top, so the test [dirname == path] skips the top and nothing else. *)
Lemma walks_to_below top d dirname node :
  valid_tree d = true ->
  walks_to top d dirname node ->
  valid_tree node = true /\
  (dirname = top /\ node = d \/ String.length top < String.length dirname).
Proof.
  intros Hvalid Hwalk.
  induction Hwalk as [top d | top [filenames subdirs] name sub dirname node Hsub _ IH].
  - auto.
  - simpl in Hsub. destruct (valid_tree_subdir _ _ _ _ Hvalid Hsub) as [Hname Hsubtree].
    destruct (IH Hsubtree) as [Hnode Hcase]. split; [assumption |]. right.
    pose proof (join_longer top name Hname).
    destruct Hcase as [[-> _] | Hlt]; lia.
Qed.

Lemma walks_to_subdir top d dirname filenames subdirs name sub :
  walks_to top d dirname (Dir filenames subdirs) ->
  (name, sub) ∈ subdirs ->
  walks_to top d (OsPath.join dirname name) sub.
Proof.
  intros Hwalk Hsub. remember (Dir filenames subdirs) as node eqn:Hnode.
  induction Hwalk as [top d | top d n s dirname node Hin _ IH].
  - subst d. eapply walks_down; [exact Hsub | apply walks_here].
  - eapply walks_down; [exact Hin | apply IH; assumption].
Qed.

(** ** What the loops of the local enumerator add *)

Lemma for_each_establishes {A X} (P : A -> Prop) (body : A -> X -> result A)
    (xs : list X) (x : X) :
  x ∈ xs ->
  (forall acc acc', body acc x = Ok acc' -> P acc') ->
  (forall acc y acc', P acc -> body acc y = Ok acc' -> P acc') ->
  forall acc acc', for_each body xs acc = Ok acc' -> P acc'.
Proof.
  intros Hin Hadds Hkeeps.
  induction xs as [| y xs IH]; intros acc acc' Hrun; [inversion Hin |].
  simpl in Hrun. destruct (body acc y) as [mid | e |] eqn:Hy; simpl in Hrun; try discriminate.
  apply elem_of_cons in Hin as [<- | Hin].
  - revert Hrun. apply for_each_invariant with (P := P); eauto.
  - eapply IH; eauto.
Qed.

Lemma flat_map_flat_map {A B C} (f : B -> list C) (g : A -> list B) (l : list A) :
  flat_map f (flat_map g l) = flat_map (fun x => flat_map f (g x)) l.
Proof.
  induction l as [| x l IH]; simpl; [reflexivity |].
  rewrite flat_map_app, IH. reflexivity.
Qed.

Section LocalListing.

Variable fnmatch : string -> string -> bool.
Variable fs : filesystem.
Variable exts : list string.

Lemma load_keeps_entry g e abspath st file st' :
  has_entry g e st ->
  TemplatesLoader.load fs abspath st file = Ok st' ->
  has_entry g e st'.
Proof.
  intros [(l & Hl & Hin) Hsome] Hload.
  destruct st as [templates index], file as [[f rel] filename].
  simpl in Hl, Hsome.
  destruct (fs_read fs (OsPath.join abspath f)) as [content | |] eqn:Hread.
  - rewrite (load_ok _ _ _ _ _ _ _ _ Hread) in Hload. injection Hload as <-.
    split; simpl.
    + rewrite push_lookup. case_decide as Hg.
      * subst g. rewrite Hl. simpl. eexists. split; [reflexivity |].
        apply elem_of_app. by left.
      * eauto.
    + rewrite lookup_insert. case_decide; eauto.
  - unfold TemplatesLoader.load in Hload. rewrite Hread in Hload.
    injection Hload as <-. split; eauto.
  - unfold TemplatesLoader.load in Hload. rewrite Hread in Hload. discriminate.
Qed.

Lemma load_adds_entry abspath st f rel filename content st' :
  fs_read fs (OsPath.join abspath f) = ReadOk content ->
  TemplatesLoader.load fs abspath st (f, rel, filename) = Ok st' ->
  has_entry (Str.strip OsPath.sep rel) (Entry.mk (OsPath.join rel filename)) st'.
Proof.
  intros Hread Hload. destruct st as [templates index].
  rewrite (load_ok _ _ _ _ _ _ _ _ Hread) in Hload. injection Hload as <-.
  split; simpl.
  - rewrite push_lookup, decide_True by reflexivity.
    eexists. split; [reflexivity |]. apply elem_of_app. right. left.
  - rewrite lookup_insert_eq. eauto.
Qed.

Lemma load_root_keeps_entry g e st root st' :
  has_entry g e st ->
  TemplatesLoader.load_root fnmatch fs exts st root = Ok st' ->
  has_entry g e st'.
Proof.
  intros Hst. unfold TemplatesLoader.load_root.
  apply for_each_invariant with (P := has_entry g e); [| exact Hst].
  intros acc file acc' _ Hacc Hload. eapply load_keeps_entry; eauto.
Qed.

Lemma load_root_adds_entry st root f rel filename content st' :
  (f, rel, filename) ∈ TemplatesLoader.scan fnmatch fs exts root ->
  fs_read fs (OsPath.join (fs_parent fs root) f) = ReadOk content ->
  TemplatesLoader.load_root fnmatch fs exts st root = Ok st' ->
  has_entry (Str.strip OsPath.sep rel) (Entry.mk (OsPath.join rel filename)) st'.
Proof.
  intros Hin Hread. unfold TemplatesLoader.load_root.
  apply (for_each_establishes _ _ _ _ Hin).
  - intros acc acc' Hload. eapply load_adds_entry; eauto.
  - intros acc file acc' Hacc Hload. eapply load_keeps_entry; eauto.
Qed.

Lemma for_each_load_root_adds_entry roots st root f rel filename content st' :
  root ∈ roots ->
  (f, rel, filename) ∈ TemplatesLoader.scan fnmatch fs exts root ->
  fs_read fs (OsPath.join (fs_parent fs root) f) = ReadOk content ->
  for_each (TemplatesLoader.load_root fnmatch fs exts) roots st = Ok st' ->
  has_entry (Str.strip OsPath.sep rel) (Entry.mk (OsPath.join rel filename)) st'.
Proof.
  intros Hroot Hin Hread.
  apply (for_each_establishes _ _ _ _ Hroot).
  - intros acc acc' Hload. eapply load_root_adds_entry; eauto.
  - intros acc r acc' Hacc Hload. eapply load_root_keeps_entry; eauto.
Qed.

End LocalListing.

(** ** The methods of the local enumerator *)

Section LocalMethods.

Variable fnmatch : string -> string -> bool.
Variable fs : filesystem.

Local Abbreviation _old := (TemplatesLoader._old fnmatch fs).
Local Abbreviation get_templates := (TemplatesLoader.get_templates fnmatch fs).
Local Abbreviation get_template := (fun path => TemplatesLoader.get_template fnmatch path fs).

Lemma old_run s :
  _old s =
  (s, for_each (TemplatesLoader.load_root fnmatch fs (TemplatesLoader.allowed_extensions s))
        (TemplatesLoader.template_dirs s) (∅, ∅)).
Proof. reflexivity. Qed.

Lemma old_consistent s templates index :
  snd (_old s) = Ok (templates, index) ->
  consistent fnmatch fs (TemplatesLoader.allowed_extensions s)
    (TemplatesLoader.template_dirs s) (templates, index).
Proof. rewrite old_run. simpl. apply for_each_load_root_consistent. Qed.

Lemma get_templates_old s templates :
  snd (get_templates s) = Ok templates ->
  exists index, snd (_old s) = Ok (templates, index).
Proof.
  unfold TemplatesLoader.get_templates, bind. rewrite old_run. simpl.
  destruct (for_each _ _ _) as [[t i] | e |]; simpl; intros H; try discriminate.
  injection H as <-. eauto.
Qed.

Lemma get_template_old s templates index path :
  snd (_old s) = Ok (templates, index) ->
  snd (get_template path s) =
  match index !! path with
  | Some data => Ok data
  | None => Raise (KeyError path)
  end.
Proof.
  unfold TemplatesLoader.get_template, bind. rewrite old_run. simpl.
  intros ->. simpl. destruct (index !! path); reflexivity.
Qed.

Lemma get_template_run s path :
  get_template path s = (s, snd (get_template path s)).
Proof.
  unfold TemplatesLoader.get_template, bind. rewrite old_run.
  destruct (for_each _ _ _) as [[t i] | e |]; simpl; [| reflexivity | reflexivity].
  destruct (i !! path); reflexivity.
Qed.


End LocalMethods.

(** ** The fetch handler *)

(** The value [get_argument] returns for a value with control characters and
    whitespace around and inside it. *)
Lemma clean_argument_example :
  RequestHandler.clean_argument
    (String "031"%char (" a" ++ String "001"%char ("b" ++ String "009"%char
       (String "011"%char (String "160"%char "")))))
  = "a b".
Proof. reflexivity. Qed.

(** The entity tags found in a header: a weak tag, a strong tag, and the
    asterisk after a [W/] that starts no tag; the quote that is not closed
    gives none. *)
Lemma findall_example :
  let q := String RequestHandler.quote "" in
  RequestHandler.findall_from 0
    ("W/" ++ q ++ "a" ++ q ++ ", " ++ q ++ "b" ++ q ++ " W/x * " ++ q ++ "c")%string
  = [("W/" ++ q ++ "a" ++ q)%string; (q ++ "b" ++ q)%string; "*"].
Proof. reflexivity. Qed.

Lemma remove_control_chars_id s :
  no_control_char s = true -> RequestHandler.remove_control_chars s = s.
Proof.
  induction s as [| c s IH]; [reflexivity |]. simpl.
  intros [Hc Hs]%andb_true_iff. apply negb_true_iff in Hc. rewrite Hc, (IH Hs). reflexivity.
Qed.

Lemma lstrip_id chars s : first_char_in chars s = false -> Str.lstrip chars s = s.
Proof. destruct s as [| c s]; [reflexivity |]. simpl. intros ->. reflexivity. Qed.

Lemma rstrip_id chars s : last_char_in chars s = false -> Str.rstrip chars s = s.
Proof.
  induction s as [| c s IH]; [reflexivity |].
  destruct s as [| c' s].
  - simpl. intros ->. reflexivity.
  - intros H. change (last_char_in chars (String c (String c' s)))
      with (last_char_in chars (String c' s)) in H.
    specialize (IH H).
    change (Str.rstrip chars (String c (String c' s)))
      with (match Str.rstrip chars (String c' s) with
            | EmptyString => if Str.mem_char c chars then EmptyString else String c EmptyString
            | r => String c r end).
    rewrite IH. reflexivity.
Qed.

(** A value without control characters and without whitespace at its ends
    reaches the handler as it was sent. *)
Lemma clean_argument_id s :
  no_control_char s = true ->
  first_char_in Str.whitespace s = false ->
  last_char_in Str.whitespace s = false ->
  RequestHandler.clean_argument s = s.
Proof.
  intros Hc Hf Hl. unfold RequestHandler.clean_argument, Str.strip.
  rewrite (remove_control_chars_id s Hc), (lstrip_id _ s Hf), (rstrip_id _ s Hl). reflexivity.
Qed.

(** Without an [If-None-Match] header no entity tag is found. *)
Lemma check_etag_header_absent computed_etag :
  RequestHandler.check_etag_header computed_etag None = false.
Proof. reflexivity. Qed.

Section FetchHandler.

Context {L : Type}.
Variable sha1_hex : list chunk -> string.
Variable get_template : string -> M L Data.t.

Import RequestHandler.

(** The method found a record: it is sent with the status the handler
    started with, or gives way to 304 for a conditional request; the status
    set afterwards comes too late to be sent. *)
Lemma respond_found req l v l' data :
  current_user req = true ->
  template_argument req = Some v ->
  clean_argument v <> "" ->
  get_template (clean_argument v) l = (l', Ok data) ->
  TemplatesHandler.respond sha1_hex get_template req l
    = Some (if check_etag_header (compute_etag sha1_hex [JsonRecord data])
                 (if_none_match req)
            then {| resp_status := 304; resp_body := [] |}
            else {| resp_status := 200; resp_body := [JsonRecord data] |}).
Proof.
  intros Huser Harg Hne Hget.
  unfold TemplatesHandler.respond, TemplatesHandler.get, authenticated, execute, bind, fresh.
  cbn [request]. rewrite Huser.
  unfold TemplatesHandler.get_body, bind, get_argument. cbn [request]. rewrite Harg.
  destruct (String.eqb_spec (clean_argument v) "") as [Heq | _]; [contradiction |].
  cbn [negb]. unfold bind, on_loader. cbn [loader]. rewrite Hget.
  unfold finish. cbn [_finished _write_buffer _status_code request app Nat.eqb andb].
  destruct (check_etag_header _ _); reflexivity.
Qed.

(** The loader raised: the server answers with the error page. *)
Lemma respond_raised req l v l' e :
  current_user req = true ->
  template_argument req = Some v ->
  clean_argument v <> "" ->
  get_template (clean_argument v) l = (l', Raise e) ->
  TemplatesHandler.respond sha1_hex get_template req l
    = Some {| resp_status := 500; resp_body := [ErrorPage] |}.
Proof.
  intros Huser Harg Hne Hget.
  unfold TemplatesHandler.respond, TemplatesHandler.get, authenticated, execute, bind, fresh.
  cbn [request]. rewrite Huser.
  unfold TemplatesHandler.get_body, bind, get_argument. cbn [request]. rewrite Harg.
  destruct (String.eqb_spec (clean_argument v) "") as [Heq | _]; [contradiction |].
  cbn [negb]. unfold bind, on_loader. cbn [loader]. rewrite Hget. reflexivity.
Qed.

(** Without a value for the parameter the loader is not called. *)
Lemma execute_no_argument req l :
  current_user req = true ->
  template_argument req = None \/ template_argument req = Some "" ->
  fst (execute sha1_hex (TemplatesHandler.get sha1_hex get_template) (fresh req l))
    = mk req l 404 [] true (Some {| resp_status := 404; resp_body := [] |}).
Proof.
  intros Huser Harg.
  unfold TemplatesHandler.get, authenticated, execute, bind, fresh.
  cbn [request]. rewrite Huser.
  unfold TemplatesHandler.get_body, bind, get_argument. cbn [request].
  destruct Harg as [-> | ->]; reflexivity.
Qed.

End FetchHandler.

(** ** The content store as a tree *)


Lemma describes_inv cm path content children :
  describes cm (Node path content children) ->
  cm_directory cm path = Some content /\
  map tree_path children = child_dirs content /\
  Forall (describes cm) children.
Proof. inversion 1; auto. Qed.

Lemma tree_path_dirs t : tree_path t ∈ tree_dirs t.
Proof. destruct t. simpl. left. Qed.

Lemma elem_of_flat_map {A B} (f : A -> list B) (l : list A) (y : B) :
  y ∈ flat_map f l <-> exists x, x ∈ l /\ y ∈ f x.
Proof.
  rewrite list_elem_of_In, in_flat_map. split; intros (x & Hx & Hy); exists x.
  - split; by apply list_elem_of_In.
  - split; by apply list_elem_of_In.
Qed.

Lemma elem_of_child_dirs content p :
  p ∈ child_dirs content <->
  exists x, x ∈ content /\ Model.type x = "directory" /\ Model.path x = p.
Proof.
  unfold child_dirs. rewrite list_elem_of_In, in_map_iff. split.
  - intros (x & Hp & Hx). apply filter_In in Hx as [Hx Hd].
    exists x. split; [by apply list_elem_of_In |]. split; [| exact Hp].
    unfold is_directory in Hd. by apply bool_decide_eq_true in Hd.
  - intros (x & Hx & Hd & Hp). exists x. split; [exact Hp |].
    apply filter_In. split; [by apply list_elem_of_In |].
    unfold is_directory. by apply bool_decide_eq_true.
Qed.


Section Store.

Variable cm : contents_manager.






End Store.


(** ** The traversal of the content store *)

Lemma alter_app (name : string) (a b : list Entry.t) (templates : gmap string (list Entry.t)) :
  alter (fun l => l ++ b) name (alter (fun l => l ++ a) name templates)
  = alter (fun l => l ++ (a ++ b)) name templates.
Proof.
  apply map_eq. intros k. destruct (decide (k = name)) as [-> |].
  - rewrite !lookup_alter_eq. destruct (templates !! name); simpl; [| reflexivity].
    by rewrite app_assoc.
  - by rewrite !lookup_alter_ne.
Qed.

Lemma alter_app_nil (name : string) (templates : gmap string (list Entry.t)) :
  alter (fun l => l ++ []) name templates = templates.
Proof. apply alter_id. intros l _. apply app_nil_r. Qed.

Lemma tree_path_forest ts d :
  d ∈ map tree_path ts -> d ∈ flat_map tree_dirs ts.
Proof.
  intros Hd. apply list_elem_of_In, in_map_iff in Hd as (t & <- & Ht).
  apply elem_of_flat_map. exists t. split; [by apply list_elem_of_In | apply tree_path_dirs].
Qed.

Section Traversal.

Variable pop : list string -> gset string -> option string.
Variable cm : contents_manager.

Local Abbreviation scan_dirs := (ContentsManagerTemplatesLoader.scan_dirs pop cm).
Local Abbreviation visit_child := ContentsManagerTemplatesLoader.visit_child.

Lemma scan_dirs_eq fuel name dirs_to_scan templates listed :
  scan_dirs fuel name dirs_to_scan templates listed =
  if decide (0 < size dirs_to_scan) then
    match fuel with
    | O => OutOfFuel
    | S fuel' =>
        match pop listed dirs_to_scan with
        | None => Raise (KeyError "pop from an empty set")
        | Some path =>
            match cm_directory cm path with
            | None => Raise (StoreError path)
            | Some content =>
                let '(dirs_to_scan, templates) :=
                  fold_left (visit_child name) content
                    (dirs_to_scan ∖ {[path]}, templates) in
                scan_dirs fuel' name dirs_to_scan templates (listed ++ [path])
            end
        end
    end
  else Ok (templates, listed).
Proof. destruct fuel; reflexivity. Qed.

Lemma fold_visit_child name content dirs_to_scan templates :
  fold_left (visit_child name) content (dirs_to_scan, templates) =
  (list_to_set (child_dirs content) ∪ dirs_to_scan,
   alter (fun l => l ++ map Entry.mk (child_notebooks content)) name templates).
Proof.
  revert dirs_to_scan templates.
  induction content as [| x content IH]; intros dirs_to_scan templates; simpl.
  - by rewrite alter_app_nil, (left_id_L ∅ (∪)).
  - unfold child_dirs, child_notebooks, is_directory, is_notebook. simpl.
    destruct (decide (Model.type x = "directory")) as [Hd | Hd].
    + rewrite (bool_decide_eq_true_2 _ Hd).
      rewrite bool_decide_eq_false_2 by (rewrite Hd; discriminate).
      rewrite IH. f_equal. simpl.
      change (map Model.path (List.filter _ content)) with (child_dirs content).
      apply set_eq. intros d. rewrite !elem_of_union. tauto.
    + rewrite (bool_decide_eq_false_2 _ Hd).
      destruct (decide (Model.type x = "notebook")) as [Hn | Hn].
      * rewrite (bool_decide_eq_true_2 _ Hn). rewrite IH. f_equal.
        simpl. apply (alter_app name [Entry.mk (Model.path x)]).
      * rewrite (bool_decide_eq_false_2 _ Hn). apply IH.
Qed.

Lemma scan_dirs_done fuel name templates listed :
  scan_dirs fuel name ∅ templates listed = Ok (templates, listed).
Proof.
  rewrite scan_dirs_eq. destruct (decide _) as [Hsize | _]; [| reflexivity].
  rewrite size_empty in Hsize. lia.
Qed.

Hypothesis pop_ok : pop_chooses pop.

Lemma scan_dirs_forest name fuel :
  forall ts templates listed,
    Forall (describes cm) ts ->
    NoDup (flat_map tree_dirs ts) ->
    length (flat_map tree_dirs ts) <= fuel ->
    exists tr out,
      scan_dirs fuel name (list_to_set (map tree_path ts)) templates listed
        = Ok (alter (fun l => l ++ out) name templates, listed ++ tr) /\
      tr ≡ₚ flat_map tree_dirs ts /\
      out ≡ₚ map Entry.mk (flat_map tree_notebooks ts).
Proof.
  induction fuel as [| fuel IH]; intros ts templates listed Hdesc Hnodup Hfuel.
  - destruct ts as [| [path content children] ts]; [| simpl in Hfuel; lia].
    exists [], []. rewrite alter_app_nil, app_nil_r.
    split; [apply scan_dirs_done | split; reflexivity].
  - rewrite scan_dirs_eq.
    destruct (decide (0 < size (list_to_set (map tree_path ts) : gset string)))
      as [Hsize | Hsize].
    + destruct (pop_ok listed (list_to_set (map tree_path ts))) as (path & -> & Hpath).
      { intros Hempty. rewrite Hempty, size_empty in Hsize. lia. }
      apply elem_of_list_to_set, list_elem_of_In, in_map_iff in Hpath
        as (t & Ht & Hin).
      apply list_elem_of_In, list_elem_of_split in Hin as (ts1 & ts2 & ->).
      destruct t as [p content children]. simpl in Ht. subst p.
      apply Forall_app in Hdesc as [Hdesc1 Hdesc2].
      apply Forall_cons in Hdesc2 as [Hnode Hdesc2].
      apply describes_inv in Hnode as (Hget & Hmap & Hchildren).
      rewrite Hget, fold_visit_child.
      assert (Hperm : flat_map tree_dirs (ts1 ++ Node path content children :: ts2)
                      ≡ₚ path :: flat_map tree_dirs (children ++ ts1 ++ ts2)).
      { rewrite !flat_map_app. simpl. rewrite <- Permutation_middle.
        constructor. rewrite (Permutation_app_comm (flat_map tree_dirs ts1)).
        rewrite <- !app_assoc. apply Permutation_app_head.
        apply Permutation_app_comm. }
      assert (Hnodup' : NoDup (path :: flat_map tree_dirs (children ++ ts1 ++ ts2))).
      { by rewrite <- Hperm. }
      apply NoDup_cons in Hnodup' as [Hfresh Hnodup'].
      assert (Hset : (list_to_set (child_dirs content)
                        ∪ list_to_set (map tree_path (ts1 ++ Node path content children :: ts2))
                            ∖ {[path]} : gset string)
                     = list_to_set (map tree_path (children ++ ts1 ++ ts2))).
      { apply set_eq. intros d.
        rewrite elem_of_union, elem_of_difference, !elem_of_list_to_set, elem_of_singleton.
        rewrite <- Hmap, !map_app. simpl. rewrite !elem_of_app, elem_of_cons, ?elem_of_app.
        assert (Hother : d ∈ map tree_path ts1 \/ d ∈ map tree_path ts2 -> d <> path).
        { intros Hd ->. apply Hfresh. rewrite !flat_map_app, !elem_of_app.
          right. destruct Hd as [Hd | Hd]; [left | right]; by apply tree_path_forest. }
        tauto. }
      rewrite Hset.
      destruct (IH (children ++ ts1 ++ ts2)
                  (alter (fun l => l ++ map Entry.mk (child_notebooks content)) name templates)
                  (listed ++ [path]))
        as (tr & out & Hrun & Htr & Hout).
      { apply Forall_app. split; [exact Hchildren |]. by apply Forall_app. }
      { exact Hnodup'. }
      { apply Permutation_length in Hperm. simpl in Hperm. lia. }
      exists (path :: tr), (map Entry.mk (child_notebooks content) ++ out).
      simpl. rewrite Hrun, alter_app, <- app_assoc. simpl.
      split; [reflexivity |]. split.
      * rewrite Hperm, Htr. reflexivity.
      * rewrite Hout, !flat_map_app. simpl. rewrite !map_app, !app_assoc.
        rewrite <- (app_assoc _ (map Entry.mk (flat_map tree_notebooks ts1))).
        rewrite Permutation_app_swap_app, !app_assoc. reflexivity.
    + destruct ts as [| t ts].
      * exists [], []. rewrite alter_app_nil, app_nil_r.
        split; [reflexivity | split; reflexivity].
      * exfalso. apply Hsize.
        assert (Hne : size (list_to_set (map tree_path (t :: ts)) : gset string) <> 0);
          [| lia].
        intros Hzero. apply size_empty_iff in Hzero.
        apply (not_elem_of_empty (C:=gset string) (tree_path t)).
        rewrite <- Hzero. apply elem_of_list_to_set. left.
Qed.

End Traversal.

Section GroupTraversal.

Variable pop : list string -> gset string -> option string.
Variable cm : contents_manager.
Hypothesis pop_ok : pop_chooses pop.

Local Abbreviation scan_group := (ContentsManagerTemplatesLoader.scan_group pop cm).

Lemma scan_group_tree fuel name t templates listed :
  describes cm t ->
  NoDup (tree_dirs t) ->
  length (tree_dirs t) <= fuel ->
  exists tr out,
    scan_group fuel (templates, listed) (name, tree_path t)
      = Ok (<[name := out]> templates, listed ++ tr) /\
    tr ≡ₚ tree_dirs t /\
    out ≡ₚ map Entry.mk (tree_notebooks t).
Proof.
  intros Hdesc Hnodup Hfuel.
  destruct (scan_dirs_forest pop cm pop_ok name fuel [t] (<[name := []]> templates) listed)
    as (tr & out & Hrun & Htr & Hout).
  { by constructor. }
  { simpl. by rewrite app_nil_r. }
  { simpl. by rewrite app_nil_r. }
  simpl in Htr, Hout. rewrite app_nil_r in Htr, Hout.
  exists tr, out. split; [| by split].
  unfold ContentsManagerTemplatesLoader.scan_group.
  rewrite alter_insert_eq in Hrun. exact Hrun.
Qed.

Lemma for_each_scan_group fuel groups trees :
  Forall2 (group_tree cm fuel) groups trees ->
  NoDup (map fst groups) ->
  forall templates listed,
  exists templates' traces,
    for_each (scan_group fuel) groups (templates, listed)
      = Ok (templates', listed ++ concat traces) /\
    Forall2 (fun tr t => tr ≡ₚ tree_dirs t) traces trees /\
    Forall2 (fun group t =>
               exists out, templates' !! fst group = Some out /\
                           out ≡ₚ map Entry.mk (tree_notebooks t)) groups trees /\
    forall k, k ∉ map fst groups -> templates' !! k = templates !! k.
Proof.
  induction 1 as [| [name root] t groups trees (Hroot & Hdesc & Hnodup & Hfuel) _ IH];
    intros Hnames templates listed.
  - exists templates, []. simpl. rewrite app_nil_r. auto.
  - simpl in Hroot, Hnames. subst root. apply NoDup_cons in Hnames as [Hname Hnames].
    destruct (scan_group_tree fuel name t templates listed Hdesc Hnodup Hfuel)
      as (tr & out & Hrun & Htr & Hout).
    destruct (IH Hnames (<[name := out]> templates) (listed ++ tr))
      as (templates' & traces & Hrest & Htraces & Houts & Hframe).
    exists templates', (tr :: traces). cbn [for_each concat]. rewrite Hrun.
    cbn [result_bind]. rewrite Hrest, app_assoc. split; [reflexivity |].
    split; [by constructor |]. split.
    + constructor; [| exact Houts]. exists out. simpl.
      rewrite (Hframe name Hname), lookup_insert_eq. auto.
    + intros k Hk. apply not_elem_of_cons in Hk as [Hne Hk].
      rewrite (Hframe k Hk). by apply lookup_insert_ne.
Qed.

End GroupTraversal.

Lemma pop_first_chooses : pop_chooses pop_first.
Proof.
  intros listed s Hs. unfold pop_first.
  destruct (elements s) as [| x l] eqn:Hel.
  - apply elements_empty_inv in Hel. apply leibniz_equiv in Hel. contradiction.
  - exists x. split; [reflexivity |]. apply elem_of_elements. rewrite Hel. left.
Qed.

Lemma store_example_describes : group_tree cm_example 3 ("g", "r") store_example.
Proof.
  split; [reflexivity |]. split.
  - repeat constructor.
  - split; [| simpl; lia]. apply (bool_decide_unpack _). vm_compute. exact I.
Qed.

(** ** The loops never run out of fuel *)

Lemma for_each_fuel {A X} (body : A -> X -> result A) (xs : list X) :
  (forall acc x, body acc x <> OutOfFuel) ->
  forall acc, for_each body xs acc <> OutOfFuel.
Proof.
  intros Hbody. induction xs as [| x xs IH]; intros acc; simpl; [discriminate |].
  destruct (body acc x) as [mid | e |] eqn:Hx; simpl; [apply IH | discriminate |].
  exfalso. exact (Hbody acc x Hx).
Qed.

Lemma load_fuel fs abspath st file :
  TemplatesLoader.load fs abspath st file <> OutOfFuel.
Proof.
  destruct st as [templates index], file as [[f rel] filename].
  unfold TemplatesLoader.load. destruct (fs_read fs _); discriminate.
Qed.

Lemma old_fuel fnmatch fs s :
  snd (TemplatesLoader._old fnmatch fs s) <> OutOfFuel.
Proof.
  rewrite old_run. simpl. apply for_each_fuel. intros acc root.
  unfold TemplatesLoader.load_root. apply for_each_fuel. intros. apply load_fuel.
Qed.

(** ** The names handler *)

Section NamesHandler.

Context {L : Type}.
Variable sha1_hex : list chunk -> string.
Variable get_templates : M L (gmap string (list Entry.t)).
Variable template_label : L -> string.

Import RequestHandler.

Lemma names_respond_found req l l' templates :
  current_user req = true ->
  get_templates l = (l', Ok templates) ->
  TemplateNamesHandler.respond sha1_hex get_templates template_label req l
    = Some (if check_etag_header
                 (compute_etag sha1_hex [JsonNames templates (template_label l')])
                 (if_none_match req)
            then {| resp_status := 304; resp_body := [] |}
            else {| resp_status := 200;
                    resp_body := [JsonNames templates (template_label l')] |}).
Proof.
  intros Huser Hget.
  unfold TemplateNamesHandler.respond, TemplateNamesHandler.get, authenticated, execute,
    bind, fresh.
  cbn [request]. rewrite Huser.
  unfold TemplateNamesHandler.get_body, bind, on_loader, attr. cbn [loader].
  rewrite Hget. cbn [loader].
  unfold finish. cbn [_finished _write_buffer _status_code request app Nat.eqb andb].
  destruct (check_etag_header _ _); reflexivity.
Qed.

Lemma names_respond_raised req l l' e :
  current_user req = true ->
  get_templates l = (l', Raise e) ->
  TemplateNamesHandler.respond sha1_hex get_templates template_label req l
    = Some {| resp_status := 500; resp_body := [ErrorPage] |}.
Proof.
  intros Huser Hget.
  unfold TemplateNamesHandler.respond, TemplateNamesHandler.get, authenticated, execute,
    bind, fresh.
  cbn [request]. rewrite Huser.
  unfold TemplateNamesHandler.get_body, bind, on_loader. cbn [loader].
  rewrite Hget. reflexivity.
Qed.

End NamesHandler.

Lemma get_templates_run fnmatch fs s :
  TemplatesLoader.get_templates fnmatch fs s
  = (s, snd (TemplatesLoader.get_templates fnmatch fs s)).
Proof.
  unfold TemplatesLoader.get_templates, bind. rewrite old_run.
  destruct (for_each _ _ _) as [[t i] | e |]; reflexivity.
Qed.

(** ** [os.path.split] after [os.path.join] *)

Lemma prefix_empty s : String.prefix "" s = true.
Proof. destruct s; reflexivity. Qed.

Lemma contains_sep_app a b : Str.contains OsPath.sep (a ++ "/" ++ b) = true.
Proof.
  induction a as [| c a IH]; simpl.
  - rewrite prefix_empty. reflexivity.
  - simpl in IH. rewrite IH. apply orb_true_r.
Qed.

Lemma split_last_app a f :
  Str.contains OsPath.sep f = false ->
  OsPath.split_last (a ++ "/" ++ f) = ((a ++ "/")%string, f).
Proof.
  intros Hf. induction a as [| c a IH].
  - change ("" ++ "/" ++ f)%string with (String "/" f).
    cbn [OsPath.split_last]. destruct (OsPath.split_last f) as [h t].
    rewrite Hf. reflexivity.
  - change ((String c a) ++ "/" ++ f)%string with (String c (a ++ "/" ++ f)).
    cbn [OsPath.split_last]. rewrite IH, contains_sep_app. reflexivity.
Qed.

Lemma split_last_plain f :
  Str.contains OsPath.sep f = false -> OsPath.split_last f = ("", f).
Proof.
  destruct f as [| c f]; [reflexivity |].
  intros Hf. cbn [OsPath.split_last].
  destruct (OsPath.split_last f) as [h t].
  simpl in Hf. apply orb_false_elim in Hf as [Hc Hrest].
  rewrite Hrest.
  destruct (Ascii.eqb_spec c "/"%char) as [-> | _]; [| reflexivity].
  simpl in Hc. rewrite prefix_empty in Hc. discriminate.
Qed.

Lemma rstrip_sep_snoc a :
  Str.endswith_char a "/"%char = false ->
  a <> "" ->
  Str.rstrip OsPath.sep (a ++ "/") = a.
Proof.
  induction a as [| c a IH]; [congruence |].
  intros Hend _. destruct a as [| c' a].
  - change (String c "" ++ "/")%string with (String c "/").
    clear IH. destruct c as [[] [] [] [] [] [] [] []]; first [reflexivity | discriminate].
  - change (String c (String c' a) ++ "/")%string with (String c (String c' a ++ "/")).
    cbn [Str.rstrip]. rewrite IH; [reflexivity | exact Hend | discriminate].
Qed.

Lemma valid_name_startswith f :
  valid_name f = true -> Str.startswith f OsPath.sep = false.
Proof.
  unfold valid_name. intros [_ Hslash]%andb_true_iff.
  apply negb_true_iff in Hslash. by apply contains_false_prefix.
Qed.

Lemma split_join d f :
  valid_name f = true ->
  Str.endswith_char d "/"%char = false ->
  OsPath.split (OsPath.join d f) = (d, f).
Proof.
  intros Hf Hd. pose proof (valid_name_startswith f Hf) as Hstart.
  unfold valid_name in Hf. apply andb_true_iff in Hf as [_ Hslash].
  apply negb_true_iff in Hslash.
  unfold OsPath.join. rewrite Hstart, Hd, orb_false_r.
  destruct (String.eqb_spec d "") as [-> | Hnonempty].
  - change ("" ++ f)%string with f. unfold OsPath.split.
    rewrite (split_last_plain f Hslash). reflexivity.
  - unfold OsPath.split.
    change (d ++ OsPath.sep ++ f)%string with (d ++ "/" ++ f)%string.
    rewrite (split_last_app d f Hslash), (rstrip_sep_snoc d Hd Hnonempty).
    destruct (String.eqb_spec d ""); [contradiction | reflexivity].
Qed.

(** ** How a loop ends *)

Lemma for_each_ok {A X} (body : A -> X -> result A) (xs : list X) :
  (forall x, x ∈ xs -> forall acc, exists acc', body acc x = Ok acc') ->
  forall acc, exists acc', for_each body xs acc = Ok acc'.
Proof.
  induction xs as [| x xs IH]; intros Hbody acc; simpl; [eauto |].
  destruct (Hbody x ltac:(left) acc) as [mid ->]. simpl.
  apply IH. intros y Hy. apply Hbody. by right.
Qed.

Lemma for_each_ok_inv {A X} (Q : X -> Prop) (body : A -> X -> result A) (xs : list X) :
  (forall acc x acc', body acc x = Ok acc' -> Q x) ->
  forall acc acc', for_each body xs acc = Ok acc' -> forall x, x ∈ xs -> Q x.
Proof.
  intros Hbody. induction xs as [| y xs IH]; intros acc acc' Hrun x Hx; [inversion Hx |].
  simpl in Hrun. destruct (body acc y) as [mid | e |] eqn:Hy; simpl in Hrun; try discriminate.
  apply elem_of_cons in Hx as [-> | Hx]; [exact (Hbody _ _ _ Hy) | exact (IH _ _ Hrun _ Hx)].
Qed.

Lemma for_each_raise_inv {A X} (R : X -> exn -> Prop) (body : A -> X -> result A)
    (xs : list X) :
  (forall acc x e, body acc x = Raise e -> R x e) ->
  forall acc e, for_each body xs acc = Raise e -> exists x, x ∈ xs /\ R x e.
Proof.
  intros Hbody. induction xs as [| y xs IH]; intros acc e Hrun; [discriminate |].
  simpl in Hrun. destruct (body acc y) as [mid | e' |] eqn:Hy; simpl in Hrun; try discriminate.
  - destruct (IH _ _ Hrun) as (x & Hx & HR). exists x. split; [by right | exact HR].
  - injection Hrun as ->. exists y. split; [left | exact (Hbody _ _ _ Hy)].
Qed.

(** ** Files that cannot be read *)

Section ReadFailures.

Variable fnmatch : string -> string -> bool.
Variable fs : filesystem.

Lemma load_cases abspath st f rel filename :
  match fs_read fs (OsPath.join abspath f) with
  | ReadFail =>
      TemplatesLoader.load fs abspath st (f, rel, filename)
      = Raise (ReadError (OsPath.join abspath f))
  | _ => exists st', TemplatesLoader.load fs abspath st (f, rel, filename) = Ok st'
  end.
Proof.
  destruct st as [templates index]. unfold TemplatesLoader.load.
  destruct (fs_read fs _); eauto.
Qed.

Lemma elem_of_candidates exts roots p :
  p ∈ candidates fnmatch fs exts roots <->
  exists root file,
    root ∈ roots /\ file ∈ TemplatesLoader.scan fnmatch fs exts root /\
    p = OsPath.join (fs_parent fs root) (fst (fst file)).
Proof.
  unfold candidates. rewrite elem_of_flat_map. split.
  - intros (root & Hroot & Hp). apply list_elem_of_In, in_map_iff in Hp as (file & <- & Hfile).
    exists root, file. split_and!; try done. by apply list_elem_of_In.
  - intros (root & file & Hroot & Hfile & ->). exists root. split; [exact Hroot |].
    apply list_elem_of_In, in_map_iff. exists file.
    split; [reflexivity | by apply list_elem_of_In].
Qed.

Lemma old_succeeds s :
  (forall p, p ∈ candidates fnmatch fs (TemplatesLoader.allowed_extensions s)
                    (TemplatesLoader.template_dirs s) ->
             fs_read fs p <> ReadFail) ->
  exists r, snd (TemplatesLoader._old fnmatch fs s) = Ok r.
Proof.
  intros Hread. rewrite old_run. simpl.
  apply for_each_ok. intros root Hroot acc. unfold TemplatesLoader.load_root.
  apply for_each_ok. intros [[f rel] filename] Hfile st.
  pose proof (load_cases (fs_parent fs root) st f rel filename) as Hload.
  destruct (fs_read fs (OsPath.join (fs_parent fs root) f)) eqn:Hp; try exact Hload.
  exfalso. apply (Hread (OsPath.join (fs_parent fs root) f)); [| exact Hp].
  apply elem_of_candidates. exists root, (f, rel, filename). auto.
Qed.

Lemma old_succeeded s r :
  snd (TemplatesLoader._old fnmatch fs s) = Ok r ->
  forall p, p ∈ candidates fnmatch fs (TemplatesLoader.allowed_extensions s)
                   (TemplatesLoader.template_dirs s) ->
            fs_read fs p <> ReadFail.
Proof.
  rewrite old_run. simpl. intros Hrun p Hp.
  apply elem_of_candidates in Hp as (root & file & Hroot & Hfile & ->).
  set (exts := TemplatesLoader.allowed_extensions s) in *.
  set (Q := fun root => forall file,
              file ∈ TemplatesLoader.scan fnmatch fs exts root ->
              fs_read fs (OsPath.join (fs_parent fs root) (fst (fst file))) <> ReadFail).
  assert (HQ : Q root); [| exact (HQ _ Hfile)].
  apply (for_each_ok_inv Q (TemplatesLoader.load_root fnmatch fs exts)
           (TemplatesLoader.template_dirs s)) with (acc := (∅, ∅)) (acc' := r);
    [| exact Hrun | exact Hroot].
  intros acc root' acc' Hload file' Hfile'. unfold TemplatesLoader.load_root in Hload.
  apply (for_each_ok_inv
           (fun file => fs_read fs (OsPath.join (fs_parent fs root') (fst (fst file)))
                        <> ReadFail)
           (TemplatesLoader.load fs (fs_parent fs root'))
           (TemplatesLoader.scan fnmatch fs exts root'))
    with (acc := acc) (acc' := acc'); [| exact Hload | exact Hfile'].
  intros st [[f' rel'] fn'] st' Hl. simpl.
  pose proof (load_cases (fs_parent fs root') st f' rel' fn') as Hcases.
  destruct (fs_read fs _); congruence.
Qed.

Lemma old_raised s e :
  snd (TemplatesLoader._old fnmatch fs s) = Raise e ->
  exists p, p ∈ candidates fnmatch fs (TemplatesLoader.allowed_extensions s)
                   (TemplatesLoader.template_dirs s) /\
            fs_read fs p = ReadFail /\ e = ReadError p.
Proof.
  rewrite old_run. simpl. intros Hrun.
  set (exts := TemplatesLoader.allowed_extensions s) in *.
  apply (for_each_raise_inv
           (fun root e => exists file,
              file ∈ TemplatesLoader.scan fnmatch fs exts root /\
              fs_read fs (OsPath.join (fs_parent fs root) (fst (fst file))) = ReadFail /\
              e = ReadError (OsPath.join (fs_parent fs root) (fst (fst file)))))
    in Hrun as (root & Hroot & file & Hfile & Hread & ->).
  - exists (OsPath.join (fs_parent fs root) (fst (fst file))). split; [| auto].
    apply elem_of_candidates. eauto.
  - intros acc root e' Hload. unfold TemplatesLoader.load_root in Hload.
    apply (for_each_raise_inv
             (fun file e => fs_read fs (OsPath.join (fs_parent fs root) (fst (fst file)))
                            = ReadFail /\
                            e = ReadError (OsPath.join (fs_parent fs root) (fst (fst file)))))
      in Hload as (file & Hfile & Hread & ->); [eauto |].
    intros st [[f' rel'] fn'] e'' Hl. simpl.
    pose proof (load_cases (fs_parent fs root) st f' rel' fn') as Hcases.
    destruct (fs_read fs _); [destruct Hcases; congruence | destruct Hcases; congruence |].
    split; congruence.
Qed.

End ReadFailures.

(** ** Roots without subdirectories *)

Lemma scan_flat_root fnmatch fs exts root :
  flat_root fs root -> TemplatesLoader.scan fnmatch fs exts root = [].
Proof.
  unfold TemplatesLoader.scan, walk. intros [-> | [filenames ->]]; [reflexivity |].
  simpl. rewrite decide_True by reflexivity. reflexivity.
Qed.

Lemma load_root_flat_root fnmatch fs exts st root :
  flat_root fs root -> TemplatesLoader.load_root fnmatch fs exts st root = Ok st.
Proof.
  intros Hflat. unfold TemplatesLoader.load_root.
  rewrite (scan_flat_root _ _ _ _ Hflat). reflexivity.
Qed.

(** ** Absolute roots *)

Lemma dir_forall_ind (P : dir -> Prop) :
  (forall filenames subdirs,
     Forall (fun entry => P (snd entry)) subdirs -> P (Dir filenames subdirs)) ->
  forall d, P d.
Proof.
  intros step. fix IH 1. intros [filenames subdirs]. apply step.
  induction subdirs as [| entry subdirs IHs]; constructor; [apply IH | apply IHs].
Qed.

Lemma startswith_sep s :
  Str.startswith s OsPath.sep = true <-> exists rest, s = String "/" rest.
Proof.
  unfold Str.startswith, OsPath.sep. destruct s as [| c s]; cbn [String.prefix].
  - split; [discriminate | intros [rest Hrest]; discriminate].
  - destruct (ascii_dec "/" c) as [<- | Hne].
    + rewrite prefix_empty. split; eauto.
    + split; [discriminate | intros [rest [= Hc _]]; congruence].
Qed.

Lemma join_startswith a b :
  Str.startswith a OsPath.sep = true -> Str.startswith (OsPath.join a b) OsPath.sep = true.
Proof.
  intros Ha. unfold OsPath.join.
  destruct (Str.startswith b OsPath.sep) eqn:Hb; [exact Hb |].
  apply startswith_sep in Ha as [rest ->]. apply startswith_sep.
  destruct (_ || _)%bool; eexists; reflexivity.
Qed.

Lemma join_absolute a b :
  Str.startswith b OsPath.sep = true -> OsPath.join a b = b.
Proof. intros Hb. unfold OsPath.join. rewrite Hb. reflexivity. Qed.

Lemma os_walk_startswith top d :
  Str.startswith top OsPath.sep = true ->
  forall entry, entry ∈ os_walk top d -> Str.startswith (fst (fst entry)) OsPath.sep = true.
Proof.
  revert top. induction d as [filenames subdirs IH] using dir_forall_ind.
  intros top Htop entry Hentry. simpl in Hentry.
  apply elem_of_cons in Hentry as [-> | Hentry]; [exact Htop |].
  apply elem_of_flat_map in Hentry as ([name sub] & Hsub & Hentry).
  rewrite Forall_forall in IH.
  apply (IH (name, sub) Hsub (OsPath.join top name)); [| exact Hentry].
  by apply join_startswith.
Qed.

(** ** [str.strip] *)

Lemma lstrip_start chars s c rest :
  Str.lstrip chars s = String c rest -> Str.mem_char c chars = false.
Proof.
  induction s as [| a s IH]; simpl; [discriminate |].
  destruct (Str.mem_char a chars) eqn:Ha; [exact IH |].
  intros [= <- _]. exact Ha.
Qed.

Lemma rstrip_end chars s c :
  Str.endswith_char (Str.rstrip chars s) c = true -> Str.mem_char c chars = false.
Proof.
  induction s as [| a s IH]; simpl; [discriminate |].
  destruct (Str.rstrip chars s) as [| b r] eqn:Hr.
  - destruct (Str.mem_char a chars) eqn:Ha; simpl; [discriminate |].
    intros Heq. apply Ascii.eqb_eq in Heq as <-. exact Ha.
  - intros H. apply IH. exact H.
Qed.

Lemma rstrip_start chars s c rest :
  Str.rstrip chars s = String c rest -> exists rest', s = String c rest'.
Proof.
  destruct s as [| a s]; simpl; [discriminate |].
  destruct (Str.rstrip chars s) as [| b r].
  - destruct (Str.mem_char a chars); [discriminate |]. intros [= <- _]. eauto.
  - intros [= <- _]. eauto.
Qed.

Lemma mem_char_sep : Str.mem_char "/" OsPath.sep = true.
Proof. reflexivity. Qed.

Lemma strip_sep_ends s :
  Str.startswith (Str.strip OsPath.sep s) OsPath.sep = false /\
  Str.endswith_char (Str.strip OsPath.sep s) "/" = false.
Proof.
  unfold Str.strip. split.
  - destruct (Str.startswith _ _) eqn:Hstart; [| reflexivity].
    apply startswith_sep in Hstart as [rest Hrest].
    apply rstrip_start in Hrest as [rest' Hrest'].
    apply lstrip_start in Hrest'. rewrite mem_char_sep in Hrest'. discriminate.
  - destruct (Str.endswith_char _ _) eqn:Hend; [| reflexivity].
    apply rstrip_end in Hend. rewrite mem_char_sep in Hend. discriminate.
Qed.

(** ** [str.replace] *)

Lemma prefix_app a b : String.prefix a (a ++ b) = true.
Proof.
  induction a as [| c a IH]; [apply prefix_empty |].
  change (String c a ++ b)%string with (String c (a ++ b)). cbn [String.prefix].
  destruct (ascii_dec c c); [exact IH | contradiction].
Qed.

Lemma replace_from_skip old new a rest :
  Str.replace_from old new (String.length a) (a ++ rest) = Str.replace_from old new 0 rest.
Proof.
  induction a as [| c a IH]; [reflexivity |].
  change (String c a ++ rest)%string with (String c (a ++ rest)). exact IH.
Qed.

Lemma replace_prefix old new rest :
  old <> "" ->
  Str.replace old new (old ++ rest) = (new ++ Str.replace old new rest)%string.
Proof.
  destruct old as [| c old]; [congruence |]. intros _.
  unfold Str.replace.
  change (String c old ++ rest)%string with (String c (old ++ rest)).
  cbn [Str.replace_from].
  change (String c (old ++ rest)) with (String c old ++ rest)%string.
  rewrite prefix_app.
  replace (String.length (String c old) - 1) with (String.length old) by (simpl; lia).
  rewrite replace_from_skip. reflexivity.
Qed.

Lemma replace_absent old new s :
  old <> "" -> Str.contains old s = false -> Str.replace old new s = s.
Proof.
  destruct old as [| c old]; [congruence |]. intros _. unfold Str.replace.
  induction s as [| a s IH]; [reflexivity |].
  intros Hs. cbn [Str.replace_from].
  pose proof (contains_false_prefix _ _ Hs) as Hprefix. rewrite Hprefix.
  simpl in Hs. apply orb_false_elim in Hs as [_ Hs]. rewrite (IH Hs). reflexivity.
Qed.

(** ** The records the walk reads *)

Lemma holds_nil : holds [] (∅, ∅).
Proof. split; intros; apply lookup_empty. Qed.

Lemma names_of_group_snoc g ds d :
  names_of_group g (ds ++ [d])
  = names_of_group g ds ++ (if String.eqb (group_of d) g then [Entry.mk (Data.name d)] else []).
Proof.
  unfold names_of_group. rewrite List.filter_app, map_app. simpl.
  destruct (String.eqb (group_of d) g); reflexivity.
Qed.

Lemma record_named_snoc k ds d :
  record_named k (ds ++ [d])
  = if String.eqb (Data.name d) k then Some d else record_named k ds.
Proof.
  unfold record_named. rewrite List.filter_app. simpl.
  destruct (String.eqb (Data.name d) k).
  - apply last_snoc.
  - by rewrite app_nil_r.
Qed.

Lemma holds_snoc ds templates index d :
  holds ds (templates, index) ->
  holds (ds ++ [d])
    (push (group_of d) (Entry.mk (Data.name d)) templates, <[Data.name d := d]> index).
Proof.
  intros [Hgroups Hindex]. split; simpl in *.
  - intros g. rewrite push_lookup, names_of_group_snoc.
    destruct (decide (group_of d = g)) as [<- | Hne].
    + rewrite String.eqb_refl, Hgroups.
      destruct (names_of_group (group_of d) ds) as [| e l]; reflexivity.
    + apply String.eqb_neq in Hne. rewrite Hne, app_nil_r. apply Hgroups.
  - intros k. rewrite record_named_snoc.
    destruct (String.eqb_spec (Data.name d) k) as [<- | Hne].
    + apply lookup_insert_eq.
    + rewrite lookup_insert_ne by assumption. apply Hindex.
Qed.

Lemma load_holds fs abspath ds st file st' :
  holds ds st ->
  TemplatesLoader.load fs abspath st file = Ok st' ->
  holds (ds ++ read_record fs abspath file) st'.
Proof.
  destruct st as [templates index], file as [[f rel] filename].
  intros Hst. unfold TemplatesLoader.load, read_record.
  destruct (fs_read fs (OsPath.join abspath f)) as [content | |]; try discriminate.
  - intros [= <-].
    exact (holds_snoc ds templates index
             (Data.mk f (OsPath.join rel filename) rel filename content) Hst).
  - intros [= <-]. by rewrite app_nil_r.
Qed.

Lemma for_each_load_holds fs abspath files :
  forall ds st st',
    holds ds st ->
    for_each (TemplatesLoader.load fs abspath) files st = Ok st' ->
    holds (ds ++ flat_map (read_record fs abspath) files) st'.
Proof.
  induction files as [| file files IH]; intros ds st st' Hst Hrun; simpl in *.
  - injection Hrun as <-. by rewrite app_nil_r.
  - destruct (TemplatesLoader.load fs abspath st file) as [mid | e |] eqn:Hload;
      simpl in Hrun; try discriminate.
    rewrite app_assoc. apply (IH _ mid); [| exact Hrun].
    exact (load_holds _ _ _ _ _ _ Hst Hload).
Qed.

Lemma for_each_load_root_holds fnmatch fs exts roots :
  forall ds st st',
    holds ds st ->
    for_each (TemplatesLoader.load_root fnmatch fs exts) roots st = Ok st' ->
    holds (ds ++ loaded fnmatch fs exts roots) st'.
Proof.
  induction roots as [| root roots IH]; intros ds st st' Hst Hrun; simpl in *.
  - injection Hrun as <-. by rewrite app_nil_r.
  - destruct (TemplatesLoader.load_root fnmatch fs exts st root) as [mid | e |] eqn:Hload;
      simpl in Hrun; try discriminate.
    unfold loaded in *. simpl. rewrite app_assoc. apply (IH _ mid); [| exact Hrun].
    exact (for_each_load_holds _ _ _ _ _ _ Hst Hload).
Qed.

Lemma old_holds fnmatch fs s templates index :
  snd (TemplatesLoader._old fnmatch fs s) = Ok (templates, index) ->
  holds (loaded fnmatch fs (TemplatesLoader.allowed_extensions s)
           (TemplatesLoader.template_dirs s)) (templates, index).
Proof.
  rewrite old_run. simpl. intros Hrun.
  exact (for_each_load_root_holds _ _ _ _ [] _ _ holds_nil Hrun).
Qed.

(** ** Cycles of the content store *)

Section Cycles.

Variable pop : list string -> gset string -> option string.
Variable cm : contents_manager.
Hypothesis pop_ok : pop_chooses pop.

Lemma reachable_step a b c :
  reachable cm a b -> child cm b c -> reachable cm a c.
Proof.
  intros Hab (content & x & Hget & Hx & Htype & <-).
  exact (reachable_child cm a b content x Hab Hget Hx Htype).
Qed.

Lemma reachable_front a b :
  reachable cm a b -> a = b \/ exists c, child cm a c /\ reachable cm c b.
Proof.
  induction 1 as [| d content x Had IH Hget Hx Htype]; [by left |].
  right. assert (Hchild : child cm d (Model.path x)) by (exists content, x; auto).
  destruct IH as [-> | (c & Hac & Hcd)].
  - exists (Model.path x). split; [exact Hchild | apply reachable_root].
  - exists c. split; [exact Hac | exact (reachable_step _ _ _ Hcd Hchild)].
Qed.

Lemma live_child z d :
  reachable cm z d -> on_cycle cm d -> exists c, child cm z c /\ reachable cm c d.
Proof.
  intros Hzd Hcycle. destruct (reachable_front z d Hzd) as [-> | Hfront]; assumption.
Qed.

Lemma scan_dirs_cycle root d name :
  (forall p, reachable cm root p -> is_Some (cm_directory cm p)) ->
  on_cycle cm d ->
  forall fuel dirs_to_scan templates listed,
    (forall p, p ∈ dirs_to_scan -> reachable cm root p) ->
    (exists z, z ∈ dirs_to_scan /\ reachable cm z d) ->
    ContentsManagerTemplatesLoader.scan_dirs pop cm fuel name dirs_to_scan templates listed
    = OutOfFuel.
Proof.
  intros Hlist Hcycle.
  induction fuel as [| fuel IH]; intros dirs_to_scan templates listed Hreach (z & Hz & Hzd);
    rewrite scan_dirs_eq.
  - rewrite decide_True; [reflexivity |].
    assert (size dirs_to_scan <> 0); [| lia].
    intros Hzero. apply size_empty_iff in Hzero. apply (not_elem_of_empty (C:=gset string) z).
    by rewrite <- Hzero.
  - assert (Hne : dirs_to_scan <> ∅).
    { intros ->. exact (not_elem_of_empty (C:=gset string) z Hz). }
    rewrite decide_True.
    2: { assert (size dirs_to_scan <> 0); [| lia].
         intros Hzero. apply size_empty_iff in Hzero. apply Hne.
         by apply leibniz_equiv. }
    destruct (pop_ok listed dirs_to_scan Hne) as (path & -> & Hpath).
    destruct (Hlist path (Hreach path Hpath)) as [content Hcontent].
    rewrite Hcontent, fold_visit_child. apply IH.
    + intros p Hp. apply elem_of_union in Hp as [Hp | Hp].
      * apply elem_of_list_to_set, elem_of_child_dirs in Hp as (x & Hx & Htype & <-).
        exact (reachable_child cm root path content x (Hreach path Hpath) Hcontent Hx Htype).
      * apply elem_of_difference in Hp as [Hp _]. by apply Hreach.
    + destruct (decide (z = path)) as [-> | Hother].
      * destruct (live_child path d Hzd Hcycle)
          as (c & (content' & x & Hget & Hx & Htype & <-) & Hcd).
        assert (content' = content) as -> by congruence.
        exists (Model.path x). split; [| exact Hcd].
        apply elem_of_union. left. apply elem_of_list_to_set, elem_of_child_dirs. eauto.
      * exists z. split; [| exact Hzd].
        apply elem_of_union. right. apply elem_of_difference. split; [exact Hz |].
        by apply not_elem_of_singleton.
Qed.

End Cycles.

Lemma cm_cycle_reachable p :
  reachable cm_cycle "r" p -> p = "r" \/ p = "r/a".
Proof.
  induction 1 as [| d content x _ IH Hget Hx Htype]; [by left |].
  destruct IH as [-> | ->]; vm_compute in Hget; injection Hget as <-;
    apply list_elem_of_singleton in Hx as ->; auto.
Qed.

(** ** Errors of the content store *)

Section StoreErrors.

Variable pop : list string -> gset string -> option string.
Variable cm : contents_manager.
Hypothesis pop_ok : pop_chooses pop.

Lemma scan_group_unlistable_root fuel st name root :
  cm_directory cm root = None ->
  ContentsManagerTemplatesLoader.scan_group pop cm (S fuel) st (name, root)
  = Raise (StoreError root).
Proof.
  intros Hroot. destruct st as [templates listed].
  unfold ContentsManagerTemplatesLoader.scan_group. rewrite scan_dirs_eq.
  assert (Hne : (list_to_set [root] : gset string) <> ∅).
  { intros Hempty. apply (not_elem_of_empty (C:=gset string) root).
    rewrite <- Hempty. apply elem_of_list_to_set. left. }
  rewrite decide_True.
  2: { assert (size (list_to_set [root] : gset string) <> 0); [| lia].
       intros Hzero. apply size_empty_iff in Hzero. apply Hne. by apply leibniz_equiv. }
  destruct (pop_ok listed _ Hne) as (path & -> & Hpath).
  apply elem_of_list_to_set, list_elem_of_singleton in Hpath as ->.
  rewrite Hroot. reflexivity.
Qed.

End StoreErrors.

(** ** The extension loader *)

Section ExtensionFacts.

Import Extension.

Variable module_dir : string.
Variable jupyter_path : list string.
Variable url_path_join : string -> string -> string.

Local Abbreviation load :=
  (load_jupyter_server_extension module_dir jupyter_path url_path_join).

Lemma load_local_list a paths base_url :
  default (DirsList []) (cfg_template_dirs (app_config a)) = DirsList paths ->
  default true (cfg_local_files (app_config a)) = true ->
  app_base_url a = Some base_url ->
  let l := TemplatesLoader.__init__ (search_path module_dir jupyter_path (app_config a) paths)
             (Some (default ["*.ipynb"] (cfg_allowed_extensions (app_config a))))
             (Some (default "Template" (cfg_template_label (app_config a)))) in
  load a =
  ({| app_config :=
        store_dirs (app_config a)
          (DirsList (search_path module_dir jupyter_path (app_config a) paths));
      app_base_url := app_base_url a;
      app_handlers :=
        app_handlers a
        ++ [ {| route_host := ".*$";
                route_url := url_path_join base_url "templates/names";
                route_handler := TemplateNamesHandler;
                route_loader := LocalLoader l |} ]
        ++ [ {| route_host := ".*$";
                route_url := url_path_join base_url "templates/get";
                route_handler := TemplatesHandler;
                route_loader := LocalLoader l |} ] |},
   None).
Proof.
  intros Hdirs Hlocal Hbase l. subst l.
  unfold load_jupyter_server_extension, search_path, include_default_on,
    include_core_paths_on.
  rewrite Hdirs, Hlocal, Hbase.
  destruct (default true (cfg_include_default (app_config a)));
    destruct (default true (cfg_include_core_paths (app_config a)));
    simpl; rewrite ?app_nil_r; reflexivity.
Qed.

End ExtensionFacts.

(** * The claims *)

(** ** C1: fetching a listed template *)




(** ** C2: no template parameter *)

(** C2: an authenticated request to the fetch handler without the [template]
    parameter, or with the empty string for it, is answered with status 404
    and an empty body, whichever loader the handler holds and whatever its
    [get_template] would do; the loader is left as it was. *)
Theorem C2_missing_template_parameter_is_404
    (L : Type) sha1_hex (get_template : string -> M L Data.t) req (l : L) :
  current_user req = true ->
  template_argument req = None \/ template_argument req = Some "" ->
  TemplatesHandler.respond sha1_hex get_template req l
    = Some {| resp_status := 404; resp_body := [] |} /\
  RequestHandler.loader
    (fst (RequestHandler.execute sha1_hex (TemplatesHandler.get sha1_hex get_template)
            (RequestHandler.fresh req l))) = l.
Proof.
  intros Huser Harg. unfold TemplatesHandler.respond.
  rewrite (execute_no_argument sha1_hex get_template req l Huser Harg).
  split; reflexivity.
Qed.

Lemma C2_missing_template_parameter_is_404_witness :
  TemplatesHandler.respond sha1_example
    (fun path => TemplatesLoader.get_template fnmatch_glob path fs_example)
    {| current_user := true; template_argument := None; if_none_match := None |}
    loader_example
    = Some {| resp_status := 404; resp_body := [] |} /\
  TemplatesHandler.respond sha1_example
    (fun path => TemplatesLoader.get_template fnmatch_glob path fs_example)
    {| current_user := true; template_argument := Some ""; if_none_match := None |}
    loader_example
    = Some {| resp_status := 404; resp_body := [] |}.
Proof.
  split.
  - apply (C2_missing_template_parameter_is_404 _ sha1_example
      (fun path => TemplatesLoader.get_template fnmatch_glob path fs_example)
      {| current_user := true; template_argument := None; if_none_match := None |}
      loader_example eq_refl (or_introl eq_refl)).
  - apply (C2_missing_template_parameter_is_404 _ sha1_example
      (fun path => TemplatesLoader.get_template fnmatch_glob path fs_example)
      {| current_user := true; template_argument := Some ""; if_none_match := None |}
      loader_example eq_refl (or_intror eq_refl)).
Defined.

(** ** C3: the key of the lookup index *)




(** ** C4: which group keys the catalog has *)

(** C4, at a concrete input: the walk of [/t] goes through the empty
    directory [/t/a/b] and the directory [/t/e], which has no notebook; the
    catalog has a group for [a] and for [c/d] and none for [a/b] or [e]. *)
Lemma C4_directory_without_template_has_no_group :
  ("/t/a/b", [], []) ∈ walk fs_example "/t" /\
  ("/t/e", [], ["readme.txt"]) ∈ walk fs_example "/t" /\
  snd (TemplatesLoader.get_templates fnmatch_glob fs_example loader_example)
    = Ok catalog_example /\
  catalog_example !! "a/b" = None /\
  catalog_example !! "e" = None.
Proof.
  split_and!.
  - vm_compute. do 2 right. left.
  - vm_compute. apply list_elem_of_In. vm_compute. tauto.
  - vm_compute. reflexivity.
  - vm_compute. reflexivity.
  - vm_compute. reflexivity.
Qed.

(** C4, amended: a group key is created when the first template of a
    directory is read, so every group of the catalog has at least one name,
    and each of its names is that of a file the walk found in a directory of
    that group, matched and read. *)
Theorem C4_groups_hold_a_template fnmatch fs self templates :
  snd (TemplatesLoader.get_templates fnmatch fs self) = Ok templates ->
  forall group l,
    templates !! group = Some l ->
    l <> [] /\
    forall e, e ∈ l ->
      exists data,
        sourced fnmatch fs (TemplatesLoader.allowed_extensions self)
          (TemplatesLoader.template_dirs self) data /\
        Data.name data = Entry.name e /\
        Str.strip OsPath.sep (Data.dirname data) = group.
Proof.
  intros Hget group l Hgroup.
  apply get_templates_old in Hget as [index Hold].
  destruct (old_consistent _ _ _ _ _ Hold) as [_ Hgroups].
  destruct (Hgroups group l Hgroup) as [Hnil Hall].
  split; [exact Hnil |].
  intros e He. destruct (Hall e He) as [_ Hsrc]. exact Hsrc.
Qed.

Lemma C4_groups_hold_a_template_witness :
  [Entry.mk "/a/x.ipynb"] <> [] /\
  exists data,
    sourced fnmatch_glob fs_example (TemplatesLoader.allowed_extensions loader_example)
      (TemplatesLoader.template_dirs loader_example) data /\
    Data.name data = "/a/x.ipynb" /\
    Str.strip OsPath.sep (Data.dirname data) = "a".
Proof.
  destruct (C4_groups_hold_a_template fnmatch_glob fs_example loader_example
    catalog_example ltac:(vm_compute; reflexivity)
    "a" [Entry.mk "/a/x.ipynb"] ltac:(vm_compute; reflexivity)) as [Hnil Hall].
  split; [exact Hnil |].
  apply (Hall (Entry.mk "/a/x.ipynb")). left.
Defined.

(** ** C5: checkpoint directories *)

(** C5, at a concrete input: with the pattern [*] allowed, the regular file
    [/t/a/.ipynb_checkpoints] is listed although the last segment of its path is
    the marker: the walk looks for the marker in the name of the directory
    only. *)
Lemma C5_marker_in_the_file_name_is_listed :
  Str.contains ".ipynb_checkpoints" "/t/a/.ipynb_checkpoints" = true /\
  snd (OsPath.split "/t/a/.ipynb_checkpoints") = ".ipynb_checkpoints" /\
  TemplatesLoader.scan fnmatch_glob fs_checkpoint ["*"] "/t"
    = [("/t/a/.ipynb_checkpoints", "/a", ".ipynb_checkpoints")] /\
  snd (TemplatesLoader.get_template fnmatch_glob "/a/.ipynb_checkpoints"
         fs_checkpoint loader_checkpoint)
    = Ok (Data.mk "/t/a/.ipynb_checkpoints" "/a/.ipynb_checkpoints" "/a"
            ".ipynb_checkpoints" "text").
Proof. split_and!; vm_compute; reflexivity. Qed.

(** C5, amended: when the name of the walked directory contains
    [.ipynb_checkpoints], none of its files is listed, whatever the file names
    and the allowed patterns; and every record of the index and every name of
    the catalog stands for a file of a directory whose name does not contain
    the marker. *)
Theorem C5_checkpoint_directories_are_excluded fnmatch fs self templates index :
  snd (TemplatesLoader._old fnmatch fs self) = Ok (templates, index) ->
  (forall root exts dirname dirnames filenames,
     Str.contains ".ipynb_checkpoints" dirname = true ->
     TemplatesLoader.dir_files fnmatch root exts (dirname, dirnames, filenames) = []) /\
  (forall key data,
     index !! key = Some data ->
     exists root dirname,
       root ∈ TemplatesLoader.template_dirs self /\
       listed_file fnmatch fs (TemplatesLoader.allowed_extensions self) root dirname
         (Data.filename data) /\
       Data.path data = OsPath.join dirname (Data.filename data) /\
       Str.contains ".ipynb_checkpoints" dirname = false) /\
  (forall group l e,
     templates !! group = Some l -> e ∈ l ->
     exists root dirname filename,
       root ∈ TemplatesLoader.template_dirs self /\
       listed_file fnmatch fs (TemplatesLoader.allowed_extensions self) root dirname filename /\
       Entry.name e = OsPath.join (Str.replace root "" dirname) filename /\
       Str.contains ".ipynb_checkpoints" dirname = false).
Proof.
  intros Hold. destruct (old_consistent _ _ _ _ _ Hold) as [Hindex Hgroups].
  split_and!.
  - intros root exts dirname dirnames filenames Hmarker.
    unfold TemplatesLoader.dir_files.
    destruct (decide (dirname = root)); [reflexivity |].
    destruct (decide (TEMPLATES_IGNORE_FILE ∈ filenames)); [reflexivity |].
    rewrite Hmarker. simpl.
    induction (List.filter _ filenames) as [| x xs IH]; simpl; auto.
  - intros key data Hkey.
    destruct (Hindex key data Hkey)
      as (_ & (root & dirname & filename & content & Hroot & Hlisted & _ & ->) & _).
    exists root, dirname. simpl. split_and!; try done.
    destruct Hlisted as (? & ? & _ & _ & _ & _ & _ & Hmarker). exact Hmarker.
  - intros group l e Hgroup He.
    destruct (Hgroups group l Hgroup) as [_ Hall].
    destruct (Hall e He)
      as (_ & data & (root & dirname & filename & content & Hroot & Hlisted & _ & ->)
          & Hname & _).
    exists root, dirname, filename. simpl in Hname. split_and!; try done.
    destruct Hlisted as (? & ? & _ & _ & _ & _ & _ & Hmarker). exact Hmarker.
Qed.

Lemma C5_checkpoint_directories_are_excluded_witness :
  TemplatesLoader.dir_files fnmatch_glob "/t" ["*.ipynb"]
    ("/t/a/.ipynb_checkpoints", [], ["x-checkpoint.ipynb"]) = [].
Proof.
  destruct (C5_checkpoint_directories_are_excluded fnmatch_glob fs_example loader_example
    catalog_example
    (snd (match snd (TemplatesLoader._old fnmatch_glob fs_example loader_example) with
          | Ok r => r | _ => (∅, ∅) end))
    ltac:(vm_compute; reflexivity)) as (Hdir & _ & _).
  apply Hdir. vm_compute. reflexivity.
Defined.

(** ** C6: a listed name can be fetched *)




(** ** C7: a name that was not listed *)

(** C7: when the walk gives an index without the key [path] (equivalently,
    no group of the catalog lists [path]), [get_template path] raises
    [KeyError]; it returns no record. *)
Theorem C7_unknown_name_raises_key_error fnmatch fs self templates index path :
  snd (TemplatesLoader._old fnmatch fs self) = Ok (templates, index) ->
  index !! path = None \/
  (forall group l, templates !! group = Some l -> Entry.mk path ∉ l) ->
  index !! path = None /\
  snd (TemplatesLoader.get_template fnmatch path fs self) = Raise (KeyError path).
Proof.
  intros Hold Hmissing.
  assert (Hnone : index !! path = None).
  { destruct Hmissing as [Hnone | Hunlisted]; [exact Hnone |].
    destruct (index !! path) as [data |] eqn:Hpath; [| reflexivity].
    destruct (old_consistent _ _ _ _ _ Hold) as [Hindex _].
    destruct (Hindex path data Hpath) as (_ & _ & l & Hl & Hin).
    exfalso. exact (Hunlisted _ _ Hl Hin). }
  split; [exact Hnone |].
  rewrite (get_template_old _ _ _ _ _ _ Hold), Hnone. reflexivity.
Qed.

Lemma C7_unknown_name_raises_key_error_witness :
  snd (TemplatesLoader.get_template fnmatch_glob "/t/top.ipynb" fs_example loader_example)
    = Raise (KeyError "/t/top.ipynb").
Proof.
  apply (C7_unknown_name_raises_key_error fnmatch_glob fs_example loader_example
    catalog_example
    (snd (match snd (TemplatesLoader._old fnmatch_glob fs_example loader_example) with
          | Ok r => r | _ => (∅, ∅) end))).
  - vm_compute. reflexivity.
  - left. vm_compute. reflexivity.
Defined.

(** ** C8: the ignore file *)

(** C8: when the walk of a root comes to a directory that holds the ignore
    file, the step of the walk for that directory collects no file, so the
    files collected below it are exactly those collected below its
    subdirectories; a file of a subdirectory without the ignore file, in a
    directory whose name is free of the checkpoint marker, matching an allowed
    pattern and readable, is collected and listed in the catalog; and every
    name of the catalog is that of a file of a walked directory without the
    ignore file. Entry names are those of a file system (not empty, no
    slash). *)
Theorem C8_ignore_file_skips_only_its_directory
    fnmatch fs self root tree dirname filenames subdirs templates index :
  snd (TemplatesLoader._old fnmatch fs self) = Ok (templates, index) ->
  root ∈ TemplatesLoader.template_dirs self ->
  fs_tree fs root = Some tree ->
  valid_tree tree = true ->
  walks_to root tree dirname (Dir filenames subdirs) ->
  TEMPLATES_IGNORE_FILE ∈ filenames ->
  TemplatesLoader.dir_files fnmatch root (TemplatesLoader.allowed_extensions self)
    (dirname, map fst subdirs, filenames) = [] /\
  subtree_files fnmatch root (TemplatesLoader.allowed_extensions self) dirname
    (Dir filenames subdirs)
  = flat_map
      (fun entry =>
         subtree_files fnmatch root (TemplatesLoader.allowed_extensions self)
           (OsPath.join dirname (fst entry)) (snd entry))
      subdirs /\
  (forall name subfiles subsubdirs filename content,
    (name, Dir subfiles subsubdirs) ∈ subdirs ->
    TEMPLATES_IGNORE_FILE ∉ subfiles ->
    Str.contains ".ipynb_checkpoints" (OsPath.join dirname name) = false ->
    filename ∈ subfiles ->
    existsb (fun y => fnmatch filename y) (TemplatesLoader.allowed_extensions self) = true ->
    fs_read fs (OsPath.join (fs_parent fs root)
                  (OsPath.join (OsPath.join dirname name) filename)) = ReadOk content ->
    (OsPath.join (OsPath.join dirname name) filename,
     Str.replace root "" (OsPath.join dirname name), filename)
      ∈ TemplatesLoader.scan fnmatch fs (TemplatesLoader.allowed_extensions self) root /\
    exists l,
      templates !! Str.strip OsPath.sep (Str.replace root "" (OsPath.join dirname name))
        = Some l /\
      Entry.mk (OsPath.join (Str.replace root "" (OsPath.join dirname name)) filename) ∈ l) /\
  (forall group l e,
     templates !! group = Some l -> e ∈ l ->
     exists root' dirname' dirnames' filenames' filename',
       root' ∈ TemplatesLoader.template_dirs self /\
       (dirname', dirnames', filenames') ∈ walk fs root' /\
       (TEMPLATES_IGNORE_FILE ∉ filenames') /\
       filename' ∈ filenames' /\
       Entry.name e = OsPath.join (Str.replace root' "" dirname') filename').
Proof.
  intros Hold Hroot Htree Hvalid Hwalk Hignore.
  set (exts := TemplatesLoader.allowed_extensions self).
  assert (Hnone : TemplatesLoader.dir_files fnmatch root exts
                    (dirname, map fst subdirs, filenames) = []).
  { unfold TemplatesLoader.dir_files.
    destruct (decide (dirname = root)); [reflexivity |].
    rewrite decide_True by assumption. reflexivity. }
  split; [exact Hnone |]. split.
  { unfold subtree_files. fold exts.
    change (os_walk dirname (Dir filenames subdirs))
      with ((dirname, map fst subdirs, filenames)
              :: flat_map (fun entry => os_walk (OsPath.join dirname (fst entry)) (snd entry))
                   subdirs).
    cbn [flat_map]. rewrite Hnone. cbn [app]. apply flat_map_flat_map. }
  split.
  2: { intros group l e Hgroup He.
       destruct (old_consistent _ _ _ _ _ Hold) as [_ Hgroups].
       destruct (Hgroups group l Hgroup) as [_ Hall].
       destruct (Hall e He)
         as (_ & data & (root' & dirname' & filename' & content' & Hroot' & Hlisted & _ & ->)
             & Hname & _).
       destruct Hlisted as (dirnames' & filenames' & Hin & _ & Hclean & Hfile & _).
       exists root', dirname', dirnames', filenames', filename'.
       simpl in Hname. split_and!; done. }
  intros name subfiles subsubdirs filename content Hsub Hclean Hmarker Hfile Hmatch Hread.
  destruct (walks_to_below _ _ _ _ Hvalid Hwalk) as [Hnode Hlen].
  destruct (valid_tree_subdir _ _ _ _ Hnode Hsub) as [Hname _].
  pose proof (join_longer dirname name Hname) as Hlonger.
  assert (Hne : OsPath.join dirname name <> root).
  { intros Heq. rewrite Heq in Hlonger. destruct Hlen as [[-> _] | Hlt]; lia. }
  pose proof (walks_to_walk _ _ _ _ (walks_to_subdir _ _ _ _ _ _ _ Hwalk Hsub)) as Hentry.
  simpl in Hentry.
  assert (Hscan : (OsPath.join (OsPath.join dirname name) filename,
                   Str.replace root "" (OsPath.join dirname name), filename)
                    ∈ TemplatesLoader.scan fnmatch fs exts root).
  { apply scan_spec. exists (OsPath.join dirname name). split; [| auto].
    exists (map fst subsubdirs), subfiles. unfold walk. rewrite Htree.
    split_and!; done. }
  split; [exact Hscan |].
  rewrite old_run in Hold. simpl in Hold.
  destruct (for_each_load_root_adds_entry _ _ _ _ _ _ _ _ _ _ _ Hroot Hscan Hread Hold)
    as [Hlisted _].
  exact Hlisted.
Qed.

Lemma C8_ignore_file_skips_only_its_directory_witness :
  TemplatesLoader.dir_files fnmatch_glob "/t" ["*.ipynb"]
    ("/t/c", ["d"], [".jupyterlab_templates_ignore"; "z.ipynb"]) = [] /\
  exists l, catalog_example !! "c/d" = Some l /\ Entry.mk "/c/d/w.ipynb" ∈ l.
Proof.
  destruct (C8_ignore_file_skips_only_its_directory fnmatch_glob fs_example loader_example
    "/t" tree_example "/t/c" [".jupyterlab_templates_ignore"; "z.ipynb"]
    [("d", Dir ["w.ipynb"] [])] catalog_example
    (snd (match snd (TemplatesLoader._old fnmatch_glob fs_example loader_example) with
          | Ok r => r | _ => (∅, ∅) end))
    ltac:(vm_compute; reflexivity)
    ltac:(left)
    ltac:(reflexivity)
    ltac:(vm_compute; reflexivity)
    ltac:(apply (walks_down "/t" tree_example "c" _ _ _ ltac:(right; left));
          apply walks_here)
    ltac:(left)) as (Hnone & _ & Hsub & _).
  split; [exact Hnone |].
  destruct (Hsub "d" ["w.ipynb"] [] "w.ipynb" "w"
    ltac:(left)
    ltac:(vm_compute; intros H; apply list_elem_of_In in H; simpl in H;
          destruct H as [H | []]; discriminate)
    ltac:(vm_compute; reflexivity)
    ltac:(left)
    ltac:(vm_compute; reflexivity)
    ltac:(vm_compute; reflexivity)) as (_ & l & Hl & Hin).
  exists l. split; [exact Hl | exact Hin].
Defined.

(** ** C9: the traversal of the content store *)



(** C9, at a concrete input: popping the first or the last pending directory
    lists the directories, and so the notebooks, in a different order; the
    directories listed and the names in the group are the same. *)
Lemma traversal_order_example :
  ContentsManagerTemplatesLoader.traverse pop_first cm_example 3 [("g", "r")]
    = Ok (<["g" := [Entry.mk "r/n.ipynb"; Entry.mk "r/a/m.ipynb"; Entry.mk "r/b/k.ipynb"]]> ∅,
          ["r"; "r/a"; "r/b"]) /\
  ContentsManagerTemplatesLoader.traverse pop_last cm_example 3 [("g", "r")]
    = Ok (<["g" := [Entry.mk "r/n.ipynb"; Entry.mk "r/b/k.ipynb"; Entry.mk "r/a/m.ipynb"]]> ∅,
          ["r"; "r/b"; "r/a"]).
Proof. split; vm_compute; reflexivity. Qed.

(** ** C10: the configuration of a loader *)

(** C10: [get_templates] and [get_template] of both loaders leave the loader
    they are called on as it was, whatever they return or raise: its
    [template_dirs], [allowed_extensions] and [template_label] are those given
    to it at construction. *)
Theorem C10_methods_leave_the_configuration fnmatch fs pop cm fuel path :
  (forall s : TemplatesLoader.self,
     let s1 := fst (TemplatesLoader.get_templates fnmatch fs s) in
     let s2 := fst (TemplatesLoader.get_template fnmatch path fs s) in
     (TemplatesLoader.template_dirs s1 = TemplatesLoader.template_dirs s /\
      TemplatesLoader.allowed_extensions s1 = TemplatesLoader.allowed_extensions s /\
      TemplatesLoader.template_label s1 = TemplatesLoader.template_label s) /\
     (TemplatesLoader.template_dirs s2 = TemplatesLoader.template_dirs s /\
      TemplatesLoader.allowed_extensions s2 = TemplatesLoader.allowed_extensions s /\
      TemplatesLoader.template_label s2 = TemplatesLoader.template_label s)) /\
  (forall s : ContentsManagerTemplatesLoader.self,
     let s1 := fst (ContentsManagerTemplatesLoader.get_templates pop cm fuel s) in
     let s2 := fst (ContentsManagerTemplatesLoader.get_template cm path s) in
     (ContentsManagerTemplatesLoader.template_dirs s1
        = ContentsManagerTemplatesLoader.template_dirs s /\
      ContentsManagerTemplatesLoader.allowed_extensions s1
        = ContentsManagerTemplatesLoader.allowed_extensions s /\
      ContentsManagerTemplatesLoader.template_label s1
        = ContentsManagerTemplatesLoader.template_label s) /\
     (ContentsManagerTemplatesLoader.template_dirs s2
        = ContentsManagerTemplatesLoader.template_dirs s /\
      ContentsManagerTemplatesLoader.allowed_extensions s2
        = ContentsManagerTemplatesLoader.allowed_extensions s /\
      ContentsManagerTemplatesLoader.template_label s2
        = ContentsManagerTemplatesLoader.template_label s)).
Proof.
  assert (H1 : read_only (TemplatesLoader.get_templates fnmatch fs)).
  { unfold TemplatesLoader.get_templates, TemplatesLoader._old.
    repeat (apply read_only_bind; [| intros ?]);
      auto using read_only_attr, read_only_lift, read_only_ret. }
  assert (H2 : read_only (TemplatesLoader.get_template fnmatch path fs)).
  { unfold TemplatesLoader.get_template, TemplatesLoader._old.
    repeat (apply read_only_bind; [| intros ?]);
      auto using read_only_attr, read_only_lift, read_only_ret.
    destruct (_ !! path); auto using read_only_lift, read_only_ret. }
  assert (H3 : read_only (ContentsManagerTemplatesLoader.get_templates pop cm fuel)).
  { unfold ContentsManagerTemplatesLoader.get_templates.
    repeat (apply read_only_bind; [| intros ?]);
      auto using read_only_attr, read_only_lift, read_only_ret. }
  assert (H4 : read_only (ContentsManagerTemplatesLoader.get_template cm path)).
  { unfold ContentsManagerTemplatesLoader.get_template.
    destruct (cm_notebook cm path); auto using read_only_lift, read_only_ret. }
  split; intros s s1 s2; subst s1 s2.
  - rewrite (H1 s), (H2 s). auto.
  - rewrite (H3 s), (H4 s). auto.
Qed.

(** * Further properties of the code *)

(** X1: an authenticated request to the names endpoint of the local enumerator
    is answered with the catalog and the label of the loader when the walk
    succeeds: with status 200, or with status 304 and no body when the request
    has an [If-None-Match] header that names the ETag of that body. When the
    walk raises, it is answered with the error page 500. *)
Theorem names_endpoint_answers_catalog_or_500 sha1_hex fnmatch fs self req :
  current_user req = true ->
  (forall templates,
     snd (TemplatesLoader.get_templates fnmatch fs self) = Ok templates ->
     let body := [JsonNames templates (TemplatesLoader.template_label self)] in
     TemplateNamesHandler.respond sha1_hex (TemplatesLoader.get_templates fnmatch fs)
       TemplatesLoader.template_label req self
     = Some (if RequestHandler.check_etag_header
                  (RequestHandler.compute_etag sha1_hex body) (if_none_match req)
             then {| resp_status := 304; resp_body := [] |}
             else {| resp_status := 200; resp_body := body |}) /\
     (if_none_match req = None ->
      TemplateNamesHandler.respond sha1_hex (TemplatesLoader.get_templates fnmatch fs)
        TemplatesLoader.template_label req self
      = Some {| resp_status := 200; resp_body := body |})) /\
  (forall e,
     snd (TemplatesLoader.get_templates fnmatch fs self) = Raise e ->
     TemplateNamesHandler.respond sha1_hex (TemplatesLoader.get_templates fnmatch fs)
       TemplatesLoader.template_label req self
     = Some {| resp_status := 500; resp_body := [ErrorPage] |}).
Proof.
  intros Huser. split.
  - intros templates Hget body.
    assert (Hrespond :
      TemplateNamesHandler.respond sha1_hex (TemplatesLoader.get_templates fnmatch fs)
        TemplatesLoader.template_label req self
      = Some (if RequestHandler.check_etag_header
                   (RequestHandler.compute_etag sha1_hex body) (if_none_match req)
              then {| resp_status := 304; resp_body := [] |}
              else {| resp_status := 200; resp_body := body |})).
    { apply (names_respond_found sha1_hex _ _ req self self templates Huser).
      rewrite get_templates_run, Hget. reflexivity. }
    split; [exact Hrespond |].
    intros Hnone. rewrite Hrespond, Hnone, check_etag_header_absent. reflexivity.
  - intros e Hget.
    apply (names_respond_raised sha1_hex _ _ req self self e Huser).
    rewrite get_templates_run, Hget. reflexivity.
Qed.

Lemma names_endpoint_answers_catalog_or_500_witness :
  TemplateNamesHandler.respond sha1_example
    (TemplatesLoader.get_templates fnmatch_glob fs_example)
    TemplatesLoader.template_label
    {| current_user := true; template_argument := None; if_none_match := None |}
    loader_example
  = Some {| resp_status := 200; resp_body := [JsonNames catalog_example "Template"] |} /\
  TemplateNamesHandler.respond sha1_example
    (TemplatesLoader.get_templates fnmatch_glob fs_example)
    TemplatesLoader.template_label
    {| current_user := true; template_argument := None;
       if_none_match := Some if_none_match_example |}
    loader_example
  = Some {| resp_status := 304; resp_body := [] |}.
Proof.
  split.
  - destruct (names_endpoint_answers_catalog_or_500 sha1_example fnmatch_glob fs_example
      loader_example
      {| current_user := true; template_argument := None; if_none_match := None |}
      eq_refl) as [Hok _].
    destruct (Hok catalog_example ltac:(vm_compute; reflexivity)) as [_ Hplain].
    exact (Hplain eq_refl).
  - destruct (names_endpoint_answers_catalog_or_500 sha1_example fnmatch_glob fs_example
      loader_example
      {| current_user := true; template_argument := None;
         if_none_match := Some if_none_match_example |}
      eq_refl) as [Hok _].
    destruct (Hok catalog_example ltac:(vm_compute; reflexivity)) as [Hcond _].
    rewrite Hcond. vm_compute. reflexivity.
Defined.

(** X2: the fetch endpoint of the local enumerator answers with the error page
    500, not with 404, an authenticated request whose [template] parameter,
    as [get_argument] returns it (control characters turned into spaces,
    surrounding whitespace stripped), is a non-empty name that the walk did
    not produce. *)
Theorem fetch_endpoint_unknown_name_is_500
    sha1_hex fnmatch fs self req v temp templates index :
  current_user req = true ->
  template_argument req = Some v ->
  RequestHandler.clean_argument v = temp ->
  temp <> "" ->
  snd (TemplatesLoader._old fnmatch fs self) = Ok (templates, index) ->
  index !! temp = None ->
  TemplatesHandler.respond sha1_hex
    (fun path => TemplatesLoader.get_template fnmatch path fs) req self
  = Some {| resp_status := 500; resp_body := [ErrorPage] |}.
Proof.
  intros Huser Harg Hclean Hne Hold Hnone. subst temp.
  apply (respond_raised sha1_hex _ req self v self
           (KeyError (RequestHandler.clean_argument v)) Huser Harg Hne).
  rewrite get_template_run, (get_template_old _ _ _ _ _ _ Hold), Hnone. reflexivity.
Qed.

Lemma fetch_endpoint_unknown_name_is_500_witness :
  TemplatesHandler.respond sha1_example
    (fun path => TemplatesLoader.get_template fnmatch_glob path fs_example)
    {| current_user := true; template_argument := Some "/t/top.ipynb ";
       if_none_match := None |} loader_example
  = Some {| resp_status := 500; resp_body := [ErrorPage] |}.
Proof.
  apply (fetch_endpoint_unknown_name_is_500 sha1_example fnmatch_glob fs_example
    loader_example
    {| current_user := true; template_argument := Some "/t/top.ipynb ";
       if_none_match := None |}
    "/t/top.ipynb " "/t/top.ipynb"
    catalog_example
    (snd (match snd (TemplatesLoader._old fnmatch_glob fs_example loader_example) with
          | Ok r => r | _ => (∅, ∅) end))).
  - reflexivity.
  - reflexivity.
  - reflexivity.
  - discriminate.
  - vm_compute. reflexivity.
  - vm_compute. reflexivity.
Defined.

(** X3: the fetch endpoint of the store-backed enumerator serves every path the
    store can read as a notebook, whatever groups the loader was configured
    with: the catalog is not consulted. The path is the [template] parameter
    as [get_argument] returns it (control characters turned into spaces,
    surrounding whitespace stripped). The record has the path, the text of
    the notebook, and the two parts of the path as directory and file name;
    it is sent with status 200, or gives way to status 304 and no body when
    the request has an [If-None-Match] header that names the ETag of that
    body. *)
Theorem store_fetch_serves_any_readable_path sha1_hex cm self req v d f text :
  current_user req = true ->
  template_argument req = Some v ->
  RequestHandler.clean_argument v = OsPath.join d f ->
  valid_name f = true ->
  Str.endswith_char d "/"%char = false ->
  cm_notebook cm (OsPath.join d f) = Some text ->
  let body := [JsonRecord (Data.mk (OsPath.join d f) f d f text)] in
  TemplatesHandler.respond sha1_hex (ContentsManagerTemplatesLoader.get_template cm) req self
  = Some (if RequestHandler.check_etag_header
               (RequestHandler.compute_etag sha1_hex body) (if_none_match req)
          then {| resp_status := 304; resp_body := [] |}
          else {| resp_status := 200; resp_body := body |}) /\
  (if_none_match req = None ->
   TemplatesHandler.respond sha1_hex (ContentsManagerTemplatesLoader.get_template cm) req self
   = Some {| resp_status := 200; resp_body := body |}).
Proof.
  intros Huser Harg Hclean Hf Hd Hread body.
  assert (Hrespond :
    TemplatesHandler.respond sha1_hex (ContentsManagerTemplatesLoader.get_template cm)
      req self
    = Some (if RequestHandler.check_etag_header
                 (RequestHandler.compute_etag sha1_hex body) (if_none_match req)
            then {| resp_status := 304; resp_body := [] |}
            else {| resp_status := 200; resp_body := body |})).
  { apply (respond_found sha1_hex _ req self v self _ Huser Harg).
    - rewrite Hclean. intros Heq. pose proof (join_longer d f Hf) as Hlen.
      rewrite Heq in Hlen. simpl in Hlen. lia.
    - rewrite Hclean. unfold ContentsManagerTemplatesLoader.get_template. rewrite Hread.
      rewrite (split_join d f Hf Hd). reflexivity. }
  split; [exact Hrespond |].
  intros Hnone. rewrite Hrespond, Hnone, check_etag_header_absent. reflexivity.
Qed.

Lemma store_fetch_serves_any_readable_path_witness :
  TemplatesHandler.respond sha1_example
    (ContentsManagerTemplatesLoader.get_template
       {| cm_directory := fun _ => None;
          cm_notebook := fun p => if String.eqb p "private/n.ipynb" then Some "{}" else None |})
    {| current_user := true; template_argument := Some " private/n.ipynb";
       if_none_match := None |}
    cm_loader_example
  = Some {| resp_status := 200;
            resp_body :=
              [JsonRecord (Data.mk "private/n.ipynb" "n.ipynb" "private" "n.ipynb" "{}")] |}.
Proof.
  apply (store_fetch_serves_any_readable_path sha1_example _ cm_loader_example
    {| current_user := true; template_argument := Some " private/n.ipynb";
       if_none_match := None |}
    " private/n.ipynb" "private" "n.ipynb" "{}"); reflexivity.
Defined.

(** X4: the walk of the local enumerator succeeds exactly when none of the
    files it opens fails with an error other than a missing file or a refused
    permission (an undecodable file, say); when one does, the listing and
    every fetch, also of another template, raise that error. *)
Theorem listing_fails_on_one_unreadable_file fnmatch fs self :
  ((exists r, snd (TemplatesLoader._old fnmatch fs self) = Ok r) <->
   (forall p, p ∈ candidates fnmatch fs (TemplatesLoader.allowed_extensions self)
                     (TemplatesLoader.template_dirs self) ->
              fs_read fs p <> ReadFail)) /\
  (forall e,
     snd (TemplatesLoader._old fnmatch fs self) = Raise e ->
     (exists p, p ∈ candidates fnmatch fs (TemplatesLoader.allowed_extensions self)
                      (TemplatesLoader.template_dirs self) /\
                fs_read fs p = ReadFail /\ e = ReadError p) /\
     snd (TemplatesLoader.get_templates fnmatch fs self) = Raise e /\
     forall path, snd (TemplatesLoader.get_template fnmatch path fs self) = Raise e).
Proof.
  split.
  - split; [intros [r Hr]; exact (old_succeeded fnmatch fs self r Hr) | apply old_succeeds].
  - intros e He. split; [exact (old_raised fnmatch fs self e He) |].
    unfold TemplatesLoader.get_templates, TemplatesLoader.get_template, bind.
    destruct (TemplatesLoader._old fnmatch fs self) as [s' [r | e' |]];
      simpl in He; try discriminate.
    injection He as ->. split; [reflexivity | intros; reflexivity].
Qed.

Lemma listing_fails_on_one_unreadable_file_witness :
  snd (TemplatesLoader.get_templates fnmatch_glob fs_undecodable loader_example)
    = Raise (ReadError "/t/a/bad.ipynb") /\
  snd (TemplatesLoader.get_template fnmatch_glob "/a/x.ipynb" fs_undecodable loader_example)
    = Raise (ReadError "/t/a/bad.ipynb").
Proof.
  destruct (listing_fails_on_one_unreadable_file fnmatch_glob fs_undecodable loader_example)
    as [_ Hraise].
  destruct (Hraise (ReadError "/t/a/bad.ipynb") ltac:(vm_compute; reflexivity))
    as (_ & Hlist & Hfetch).
  split; [exact Hlist | exact (Hfetch "/a/x.ipynb")].
Defined.

(** X5: the catalog of the local enumerator lists, under each group, the names
    of the files of that group that were read, in the order of the roots and
    of the walk, a name as often as it was read; a group without such a file
    is no key of the catalog. *)
Theorem catalog_lists_names_in_walk_order fnmatch fs self templates :
  snd (TemplatesLoader.get_templates fnmatch fs self) = Ok templates ->
  forall group,
    templates !! group =
    match names_of_group group
            (loaded fnmatch fs (TemplatesLoader.allowed_extensions self)
               (TemplatesLoader.template_dirs self)) with
    | [] => None
    | l => Some l
    end.
Proof.
  intros Hget group. apply get_templates_old in Hget as [index Hold].
  destruct (old_holds _ _ _ _ _ Hold) as [Hgroups _]. apply Hgroups.
Qed.

Lemma catalog_lists_names_in_walk_order_witness :
  catalog_two_roots !! "a" = Some [Entry.mk "/a/x.ipynb"; Entry.mk "/a/x.ipynb"].
Proof.
  rewrite (catalog_lists_names_in_walk_order fnmatch_glob fs_two_roots loader_two_roots
             catalog_two_roots ltac:(vm_compute; reflexivity) "a").
  vm_compute. reflexivity.
Defined.

(** X6: when several files read by the walk have the same name (the same
    path relative to their roots), the lookup index keeps the record of the
    one read last, and [get_template] returns that record. *)
Theorem index_keeps_the_last_record_of_a_name fnmatch fs self templates index :
  snd (TemplatesLoader._old fnmatch fs self) = Ok (templates, index) ->
  forall key,
    index !! key
    = record_named key
        (loaded fnmatch fs (TemplatesLoader.allowed_extensions self)
           (TemplatesLoader.template_dirs self)) /\
    snd (TemplatesLoader.get_template fnmatch key fs self)
    = match record_named key
              (loaded fnmatch fs (TemplatesLoader.allowed_extensions self)
                 (TemplatesLoader.template_dirs self)) with
      | Some data => Ok data
      | None => Raise (KeyError key)
      end.
Proof.
  intros Hold key. destruct (old_holds _ _ _ _ _ Hold) as [_ Hindex].
  split; [apply Hindex |].
  rewrite (get_template_old _ _ _ _ _ _ Hold), Hindex. reflexivity.
Qed.

Lemma index_keeps_the_last_record_of_a_name_witness :
  snd (TemplatesLoader.get_template fnmatch_glob "/a/x.ipynb" fs_two_roots loader_two_roots)
  = Ok (Data.mk "/v/a/x.ipynb" "/a/x.ipynb" "/a" "x.ipynb" "second").
Proof.
  rewrite (proj2 (index_keeps_the_last_record_of_a_name fnmatch_glob fs_two_roots
                    loader_two_roots catalog_two_roots
                    (snd (match snd (TemplatesLoader._old fnmatch_glob fs_two_roots
                                       loader_two_roots) with
                          | Ok r => r | _ => (∅, ∅) end))
                    ltac:(vm_compute; reflexivity) "/a/x.ipynb")).
  vm_compute. reflexivity.
Defined.

(** X7: a root that is no directory, or that has no subdirectory, gives no
    candidate file, whatever files it holds itself; the result of the walk is
    the one of the other roots alone. *)
Theorem root_without_subdirectories_contributes_nothing fnmatch fs s s' before root after :
  flat_root fs root ->
  TemplatesLoader.template_dirs s = before ++ root :: after ->
  TemplatesLoader.template_dirs s' = before ++ after ->
  TemplatesLoader.allowed_extensions s' = TemplatesLoader.allowed_extensions s ->
  TemplatesLoader.scan fnmatch fs (TemplatesLoader.allowed_extensions s) root = [] /\
  snd (TemplatesLoader._old fnmatch fs s) = snd (TemplatesLoader._old fnmatch fs s') /\
  snd (TemplatesLoader.get_templates fnmatch fs s)
    = snd (TemplatesLoader.get_templates fnmatch fs s').
Proof.
  intros Hflat Hs Hs' Hexts.
  assert (Hold : snd (TemplatesLoader._old fnmatch fs s)
                 = snd (TemplatesLoader._old fnmatch fs s')).
  { rewrite !old_run. simpl. rewrite Hs, Hs', Hexts, !for_each_app.
    destruct (for_each _ before _) as [mid | e |]; simpl; try reflexivity.
    rewrite (load_root_flat_root _ _ _ _ _ Hflat). reflexivity. }
  split; [by apply scan_flat_root |]. split; [exact Hold |].
  unfold TemplatesLoader.get_templates, bind.
  destruct (TemplatesLoader._old fnmatch fs s) as [s1 r1],
           (TemplatesLoader._old fnmatch fs s') as [s2 r2].
  simpl in Hold. subst r2. destruct r1; reflexivity.
Qed.

Lemma root_without_subdirectories_contributes_nothing_witness :
  snd (TemplatesLoader.get_templates fnmatch_glob fs_flat
         (TemplatesLoader.__init__ ["/flat"; "/t"] None None))
  = snd (TemplatesLoader.get_templates fnmatch_glob fs_flat
           (TemplatesLoader.__init__ ["/t"] None None)).
Proof.
  destruct (root_without_subdirectories_contributes_nothing fnmatch_glob fs_flat
              (TemplatesLoader.__init__ ["/flat"; "/t"] None None)
              (TemplatesLoader.__init__ ["/t"] None None)
              [] "/flat" ["/t"]
              ltac:(right; exists ["top.ipynb"]; reflexivity)
              eq_refl eq_refl eq_refl) as (_ & _ & Hsame).
  exact Hsame.
Defined.

(** X8: for a root given as an absolute path, every candidate of the walk is an
    absolute path, so joining it to the parent directory computed for the root
    changes nothing: the file opened is the walked path itself. *)
Theorem absolute_root_opens_the_walked_path fnmatch fs exts root f rel filename :
  Str.startswith root OsPath.sep = true ->
  (f, rel, filename) ∈ TemplatesLoader.scan fnmatch fs exts root ->
  Str.startswith f OsPath.sep = true /\
  forall abspath st,
    OsPath.join abspath f = f /\
    TemplatesLoader.load fs abspath st (f, rel, filename)
      = TemplatesLoader.load fs "" st (f, rel, filename).
Proof.
  intros Hroot Hin.
  assert (Hf : Str.startswith f OsPath.sep = true).
  { apply scan_spec in Hin as (dirname & (dirnames & filenames & Hwalk & _) & -> & _).
    apply join_startswith. unfold walk in Hwalk.
    destruct (fs_tree fs root) as [d |]; [| inversion Hwalk].
    exact (os_walk_startswith root d Hroot _ Hwalk). }
  split; [exact Hf |]. intros abspath st.
  split; [by apply join_absolute |].
  destruct st as [templates index]. unfold TemplatesLoader.load.
  rewrite !(join_absolute _ f Hf). reflexivity.
Qed.

Lemma absolute_root_opens_the_walked_path_witness :
  OsPath.join "/somewhere" "/t/a/x.ipynb" = "/t/a/x.ipynb".
Proof.
  destruct (absolute_root_opens_the_walked_path fnmatch_glob fs_example ["*.ipynb"] "/t"
    "/t/a/x.ipynb" "/a" "x.ipynb"
    ltac:(reflexivity)
    ltac:(vm_compute; left)) as [_ H].
  exact (proj1 (H "/somewhere" (∅, ∅))).
Defined.

(** X9: the directory of a candidate relative to its root is computed by
    [replace], which removes the root string wherever it occurs: for a walked
    directory [root ++ rest] it is [rest] with every occurrence of the root
    string removed, and [rest] itself only when the root string does not occur
    in it. *)
Theorem relative_directory_removes_every_occurrence
    fnmatch root exts rest dirnames filenames f rel filename :
  root <> "" ->
  (f, rel, filename)
    ∈ TemplatesLoader.dir_files fnmatch root exts ((root ++ rest)%string, dirnames, filenames) ->
  rel = Str.replace root "" rest /\
  (Str.contains root rest = false -> rel = rest).
Proof.
  intros Hroot Hin.
  apply dir_files_spec in Hin as (dn & ds & fns & [= <- <- <-] & _ & _ & _ & _ & _ & _ & ->).
  rewrite (replace_prefix root "" rest Hroot).
  split; [reflexivity |]. intros Habsent.
  change ("" ++ Str.replace root "" rest)%string with (Str.replace root "" rest).
  by apply replace_absent.
Qed.

Lemma relative_directory_removes_every_occurrence_witness :
  ("/t/a/t/b/x.ipynb", "/a/b", "x.ipynb")
    ∈ TemplatesLoader.dir_files fnmatch_glob "/t" ["*.ipynb"] ("/t/a/t/b", [], ["x.ipynb"]) /\
  "/a/b" = Str.replace "/t" "" "/a/t/b".
Proof.
  assert (Hin : ("/t/a/t/b/x.ipynb", "/a/b", "x.ipynb")
                  ∈ TemplatesLoader.dir_files fnmatch_glob "/t" ["*.ipynb"]
                      (("/t" ++ "/a/t/b")%string, [], ["x.ipynb"])).
  { vm_compute. left. }
  split; [exact Hin |].
  exact (proj1 (relative_directory_removes_every_occurrence fnmatch_glob "/t" ["*.ipynb"]
                  "/a/t/b" [] ["x.ipynb"] "/t/a/t/b/x.ipynb" "/a/b" "x.ipynb"
                  ltac:(discriminate) Hin)).
Defined.

(** X10: no group key of the catalog of the local enumerator starts or ends
    with a slash. *)
Theorem group_keys_have_no_slash_at_the_ends fnmatch fs self templates group l :
  snd (TemplatesLoader.get_templates fnmatch fs self) = Ok templates ->
  templates !! group = Some l ->
  Str.startswith group OsPath.sep = false /\
  Str.endswith_char group "/" = false.
Proof.
  intros Hget Hgroup. apply get_templates_old in Hget as [index Hold].
  destruct (old_consistent _ _ _ _ _ Hold) as [_ Hgroups].
  destruct (Hgroups group l Hgroup) as [Hne Hall].
  destruct l as [| e l]; [contradiction |].
  destruct (Hall e ltac:(left)) as (_ & d & _ & _ & <-).
  apply strip_sep_ends.
Qed.

Lemma group_keys_have_no_slash_at_the_ends_witness :
  Str.startswith "c/d" OsPath.sep = false /\ Str.endswith_char "c/d" "/" = false.
Proof.
  apply (group_keys_have_no_slash_at_the_ends fnmatch_glob fs_example loader_example
    catalog_example "c/d" [Entry.mk "/c/d/w.ipynb"]).
  - vm_compute. reflexivity.
  - vm_compute. reflexivity.
Defined.

(** X11: the catalog of the store-backed enumerator has exactly the configured
    group names as its keys: a group is there also when no notebook is found
    below its root, with an empty list, and nothing else is. *)
Theorem store_catalog_keys_are_the_group_names pop cm fuel self trees templates :
  pop_chooses pop ->
  NoDup (map fst (ContentsManagerTemplatesLoader.template_dirs self)) ->
  Forall2 (group_tree cm fuel) (ContentsManagerTemplatesLoader.template_dirs self) trees ->
  snd (ContentsManagerTemplatesLoader.get_templates pop cm fuel self) = Ok templates ->
  (forall key,
     is_Some (templates !! key)
     <-> key ∈ map fst (ContentsManagerTemplatesLoader.template_dirs self)) /\
  (forall i name root t,
     ContentsManagerTemplatesLoader.template_dirs self !! i = Some (name, root) ->
     trees !! i = Some t ->
     tree_notebooks t = [] ->
     templates !! name = Some []).
Proof.
  intros Hpop Hnames Htrees Hget.
  destruct (for_each_scan_group pop cm Hpop fuel _ _ Htrees Hnames ∅ [])
    as (templates' & traces & Hrun & _ & Houts & Hframe).
  unfold ContentsManagerTemplatesLoader.get_templates, bind, attr, lift, ret in Hget.
  unfold ContentsManagerTemplatesLoader.traverse in Hget. rewrite Hrun in Hget.
  simpl in Hget. injection Hget as <-.
  split.
  - intros key. split.
    + intros Hsome.
      destruct (decide (key ∈ map fst (ContentsManagerTemplatesLoader.template_dirs self)))
        as [Hin | Hout]; [exact Hin |].
      rewrite (Hframe key Hout), lookup_empty in Hsome. by destruct Hsome.
    + intros Hin. apply list_elem_of_In, in_map_iff in Hin as (group & <- & Hgroup).
      apply list_elem_of_In, list_elem_of_lookup in Hgroup as [i Hi].
      destruct (Forall2_lookup_l _ _ _ _ _ Houts Hi) as (t & _ & out & Hout & _).
      rewrite Hout. eauto.
  - intros i name root t Hi Ht Hnone.
    destruct (Forall2_lookup_l _ _ _ _ _ Houts Hi) as (t' & Ht' & out & Hout & Hperm).
    assert (t' = t) as -> by congruence.
    rewrite Hnone in Hperm. simpl in Hperm, Hout.
    apply Permutation_nil_r in Hperm. by subst out.
Qed.

Lemma store_catalog_keys_are_the_group_names_witness :
  (<["g" := []]> ∅ : gmap string (list Entry.t)) !! "g" = Some [] /\
  ~ is_Some ((<["g" := []]> ∅ : gmap string (list Entry.t)) !! "e").
Proof.
  destruct (store_catalog_keys_are_the_group_names pop_first cm_empty_group 1
    (ContentsManagerTemplatesLoader.__init__ [("g", "e")] None None true)
    [Node "e" [Model.mk "file" "e/readme.md"] []]
    (<["g" := []]> ∅)
    pop_first_chooses
    ltac:(apply (bool_decide_unpack _); vm_compute; exact I)
    ltac:(constructor; [| constructor];
          split; [reflexivity |];
          split; [repeat constructor |];
          split; [apply (bool_decide_unpack _); vm_compute; exact I | simpl; lia])
    ltac:(vm_compute; reflexivity)) as [Hkeys Hempty].
  split.
  - exact (Hempty 0 "g" "e" _ eq_refl eq_refl eq_refl).
  - intros Hsome. apply Hkeys in Hsome.
    apply list_elem_of_singleton in Hsome. discriminate.
Defined.

(** X12: the store-backed enumerator does not skip a group whose root cannot be
    listed: when the groups before it are traversed, [get_templates] raises
    what the store raised for that root, and the groups after it are not
    looked at. *)
Theorem store_unlistable_root_fails_the_listing
    pop cm fuel self before trees name root after :
  pop_chooses pop ->
  ContentsManagerTemplatesLoader.template_dirs self = before ++ (name, root) :: after ->
  NoDup (map fst before) ->
  Forall2 (group_tree cm (S fuel)) before trees ->
  cm_directory cm root = None ->
  snd (ContentsManagerTemplatesLoader.get_templates pop cm (S fuel) self)
  = Raise (StoreError root).
Proof.
  intros Hpop Hdirs Hnames Htrees Hroot.
  unfold ContentsManagerTemplatesLoader.get_templates, bind, attr, lift, ret.
  unfold ContentsManagerTemplatesLoader.traverse. rewrite Hdirs, for_each_app.
  destruct (for_each_scan_group pop cm Hpop (S fuel) before trees Htrees Hnames ∅ [])
    as (templates & traces & -> & _).
  cbn [result_bind for_each snd].
  rewrite (scan_group_unlistable_root pop cm Hpop fuel _ name root Hroot).
  reflexivity.
Qed.

Lemma store_unlistable_root_fails_the_listing_witness :
  snd (ContentsManagerTemplatesLoader.get_templates pop_first cm_example 3
         (ContentsManagerTemplatesLoader.__init__ [("g", "r"); ("h", "missing"); ("k", "r")]
            None None true))
  = Raise (StoreError "missing").
Proof.
  apply (store_unlistable_root_fails_the_listing pop_first cm_example 2 _
           [("g", "r")] [store_example] "h" "missing" [("k", "r")] pop_first_chooses).
  - reflexivity.
  - apply (bool_decide_unpack _). vm_compute. exact I.
  - constructor; [exact store_example_describes | constructor].
  - reflexivity.
Defined.

(** X13: the traversal of the store-backed enumerator keeps no record of the
    directories it has listed: when a directory reachable from the root of a
    group lies on a cycle of the store (and the reachable directories can be
    listed), the loop of that group does not end, in whatever order the
    pending directories are popped; no number of rounds is enough. *)
Theorem store_cycle_is_traversed_forever pop cm name root d templates listed :
  pop_chooses pop ->
  (forall p, reachable cm root p -> is_Some (cm_directory cm p)) ->
  reachable cm root d ->
  on_cycle cm d ->
  forall fuel,
    ContentsManagerTemplatesLoader.scan_group pop cm fuel (templates, listed) (name, root)
    = OutOfFuel.
Proof.
  intros Hpop Hlist Hreach Hcycle fuel. unfold ContentsManagerTemplatesLoader.scan_group.
  apply (scan_dirs_cycle pop cm Hpop root d name Hlist Hcycle).
  - intros p Hp. apply elem_of_list_to_set, list_elem_of_singleton in Hp as ->.
    apply reachable_root.
  - exists root. split; [| exact Hreach]. apply elem_of_list_to_set. left.
Qed.

Lemma store_cycle_is_traversed_forever_witness :
  ContentsManagerTemplatesLoader.scan_group pop_first cm_cycle 1000 (∅, []) ("g", "r")
  = OutOfFuel.
Proof.
  apply (store_cycle_is_traversed_forever pop_first cm_cycle "g" "r" "r" ∅ []
           pop_first_chooses).
  - intros p Hp. destruct (cm_cycle_reachable p Hp) as [-> | ->]; vm_compute; eauto.
  - apply reachable_root.
  - exists "r/a". split.
    + exists [Model.mk "directory" "r/a"], (Model.mk "directory" "r/a").
      split_and!; try reflexivity. left.
    + apply (reachable_child cm_cycle "r/a" "r/a" [Model.mk "directory" "r"]
               (Model.mk "directory" "r") (reachable_root _ _) eq_refl);
        [left | reflexivity].
Defined.

(** X14: a loader never has an empty label or an empty list of patterns: the
    constructors keep the roots as given and replace a missing or empty label
    or list of patterns by the default, and the methods leave the loader as it
    is. *)
Theorem loaders_have_a_label_and_patterns
    dirs store_dirs exts label include_default fnmatch fs pop cm fuel path :
  let s := TemplatesLoader.__init__ dirs exts label in
  let c := ContentsManagerTemplatesLoader.__init__ store_dirs label exts include_default in
  (TemplatesLoader.template_dirs s = dirs /\
   TemplatesLoader.template_label s <> "" /\
   TemplatesLoader.allowed_extensions s <> []) /\
  (ContentsManagerTemplatesLoader.template_dirs c = store_dirs /\
   ContentsManagerTemplatesLoader.template_label c <> "" /\
   ContentsManagerTemplatesLoader.allowed_extensions c <> []) /\
  (TemplatesLoader.template_label (fst (TemplatesLoader.get_templates fnmatch fs s)) <> "" /\
   TemplatesLoader.allowed_extensions (fst (TemplatesLoader.get_template fnmatch path fs s))
     <> []) /\
  (ContentsManagerTemplatesLoader.template_label
     (fst (ContentsManagerTemplatesLoader.get_templates pop cm fuel c)) <> "" /\
   ContentsManagerTemplatesLoader.allowed_extensions
     (fst (ContentsManagerTemplatesLoader.get_template cm path c)) <> []).
Proof.
  intros s c.
  assert (Hs : TemplatesLoader.template_label s <> "" /\
               TemplatesLoader.allowed_extensions s <> []).
  { subst s. destruct label as [[| ? ?] |], exts as [[| ? ?] |]; simpl; split; discriminate. }
  assert (Hc : ContentsManagerTemplatesLoader.template_label c <> "" /\
               ContentsManagerTemplatesLoader.allowed_extensions c <> []).
  { subst c. destruct label as [[| ? ?] |], exts as [[| ? ?] |]; simpl; split; discriminate. }
  destruct Hs as [Hs1 Hs2], Hc as [Hc1 Hc2].
  split_and!; try done.
  - rewrite get_templates_run. exact Hs1.
  - rewrite get_template_run. exact Hs2.
  - unfold ContentsManagerTemplatesLoader.get_templates, bind, attr, lift, ret.
    destruct (ContentsManagerTemplatesLoader.traverse _ _ _ _); exact Hc1.
  - unfold ContentsManagerTemplatesLoader.get_template, lift, ret.
    destruct (cm_notebook cm path); exact Hc2.
Qed.

(** X15: with a list of roots and the local enumerator, the extension installs
    the names handler and the fetch handler with one loader, whose roots are
    the default templates of the package first (unless [include_default] is
    off), then the configured roots in their order, then the
    [notebook_templates] directory of every Jupyter path (unless
    [include_core_paths] is off); its label and its patterns are never
    empty. *)
Theorem extension_search_path_order module_dir jupyter_path url_path_join a paths base_url :
  default (Extension.DirsList []) (Extension.cfg_template_dirs (Extension.app_config a))
    = Extension.DirsList paths ->
  default true (Extension.cfg_local_files (Extension.app_config a)) = true ->
  Extension.app_base_url a = Some base_url ->
  exists a' l,
    Extension.load_jupyter_server_extension module_dir jupyter_path url_path_join a
      = (a', None) /\
    Extension.app_handlers a' =
      Extension.app_handlers a
      ++ [ {| Extension.route_host := ".*$";
              Extension.route_url := url_path_join base_url "templates/names";
              Extension.route_handler := Extension.TemplateNamesHandler;
              Extension.route_loader := Extension.LocalLoader l |};
           {| Extension.route_host := ".*$";
              Extension.route_url := url_path_join base_url "templates/get";
              Extension.route_handler := Extension.TemplatesHandler;
              Extension.route_loader := Extension.LocalLoader l |} ] /\
    TemplatesLoader.template_dirs l =
      (if include_default_on (Extension.app_config a)
       then [OsPath.join module_dir "templates"] else [])
      ++ paths
      ++ (if include_core_paths_on (Extension.app_config a)
          then map (fun x => OsPath.join x "notebook_templates") jupyter_path else []) /\
    TemplatesLoader.template_label l <> "" /\
    TemplatesLoader.allowed_extensions l <> [].
Proof.
  intros Hdirs Hlocal Hbase.
  pose proof (load_local_list module_dir jupyter_path url_path_join a paths base_url
                Hdirs Hlocal Hbase) as Hload. simpl in Hload.
  eexists _, _. split; [exact Hload |]. simpl. split; [reflexivity |].
  split; [reflexivity |].
  destruct (default "Template" _) as [| ? ?], (default ["*.ipynb"] _) as [| ? ?];
    simpl; split; discriminate.
Qed.

Lemma extension_search_path_order_witness :
  exists a' l,
    Extension.load_jupyter_server_extension "/pkg" ["/usr/share/jupyter"] url_join_example
      app_example = (a', None) /\
    TemplatesLoader.template_dirs l
      = ["/pkg/templates"; "/srv/one"; "/srv/two"; "/usr/share/jupyter/notebook_templates"] /\
    map Extension.route_loader (Extension.app_handlers a')
      = [Extension.LocalLoader l; Extension.LocalLoader l].
Proof.
  destruct (extension_search_path_order "/pkg" ["/usr/share/jupyter"] url_join_example
              app_example ["/srv/one"; "/srv/two"] "/" eq_refl eq_refl eq_refl)
    as (a' & l & Hload & Hroutes & Hdirs & _).
  exists a', l. split; [exact Hload |]. split; [exact Hdirs |].
  rewrite Hroutes. reflexivity.
Defined.

(** X16: the defaults are added with the list methods [insert] and [extend]:
    when [template_dirs] is a dict, as the store-backed enumerator needs it,
    and one of the two flags is on, the extension raises [AttributeError] and
    installs no handler; with [local_files] off and the flags not set, both
    are off and the store-backed loader is installed over the dict as
    given. *)
Theorem extension_fails_for_a_dict_with_defaults
    module_dir jupyter_path url_path_join a items base_url :
  Extension.cfg_template_dirs (Extension.app_config a) = Some (Extension.DirsDict items) ->
  Extension.app_base_url a = Some base_url ->
  (include_default_on (Extension.app_config a) = true \/
   include_core_paths_on (Extension.app_config a) = true ->
   exists attribute,
     Extension.load_jupyter_server_extension module_dir jupyter_path url_path_join a
       = (a, Some (Extension.AttributeError attribute))) /\
  (Extension.cfg_local_files (Extension.app_config a) = Some false ->
   Extension.cfg_include_default (Extension.app_config a) = None ->
   Extension.cfg_include_core_paths (Extension.app_config a) = None ->
   exists a',
     Extension.load_jupyter_server_extension module_dir jupyter_path url_path_join a
       = (a', None) /\
     map Extension.route_loader (Extension.app_handlers a') =
       map Extension.route_loader (Extension.app_handlers a)
       ++ (let l := Extension.StoreLoader
                      (ContentsManagerTemplatesLoader.__init__ items
                         (Some (default "Template"
                                  (Extension.cfg_template_label (Extension.app_config a))))
                         (Some (default ["*.ipynb"]
                                  (Extension.cfg_allowed_extensions (Extension.app_config a))))
                         true) in
           [l; l])).
Proof.
  intros Hdirs Hbase. destruct a as [c base handlers]. simpl in *. subst base. split.
  - intros Hflag.
    unfold Extension.load_jupyter_server_extension, include_default_on,
      include_core_paths_on in *. simpl. rewrite Hdirs. simpl.
    destruct (default (default true (Extension.cfg_local_files c))
                (Extension.cfg_include_default c)) eqn:Hdefault.
    + eexists. reflexivity.
    + destruct Hflag as [Hflag | Hflag]; [discriminate |]. rewrite Hflag.
      eexists. f_equal. unfold Extension.with_config, Extension.store_dirs. simpl.
      rewrite Hdirs. f_equal. destruct c. simpl in *. by subst.
  - intros Hlocal Hdefault Hcore.
    unfold Extension.load_jupyter_server_extension. simpl.
    rewrite Hdirs, Hlocal, Hdefault, Hcore. simpl.
    eexists. split; [reflexivity |]. simpl. rewrite !map_app. reflexivity.
Qed.

Lemma extension_fails_for_a_dict_with_defaults_witness :
  Extension.load_jupyter_server_extension "/pkg" ["/usr/share/jupyter"] url_join_example
    app_store_with_default
  = (app_store_with_default, Some (Extension.AttributeError "insert")) /\
  exists a',
    Extension.load_jupyter_server_extension "/pkg" ["/usr/share/jupyter"] url_join_example
      app_store_example = (a', None).
Proof.
  split.
  - destruct (extension_fails_for_a_dict_with_defaults "/pkg" ["/usr/share/jupyter"]
                url_join_example app_store_with_default [("g", "r")] "/" eq_refl eq_refl)
      as [Hfail _].
    destruct (Hfail (or_introl eq_refl)) as [attribute Hload].
    rewrite Hload. vm_compute in Hload. injection Hload as <-. reflexivity.
  - destruct (extension_fails_for_a_dict_with_defaults "/pkg" ["/usr/share/jupyter"]
                url_join_example app_store_example [("g", "r")] "/" eq_refl eq_refl)
      as [_ Hok].
    destruct (Hok eq_refl eq_refl eq_refl) as (a' & Hload & _). eauto.
Defined.

(** X17: the extension changes the list of the configuration in place: after
    it has run, the configured [template_dirs] is the search path of the
    loader, so running it again on the same configuration adds the default
    templates and the core paths a second time. *)
Theorem extension_changes_the_configured_list
    module_dir jupyter_path url_path_join a paths base_url :
  Extension.cfg_template_dirs (Extension.app_config a) = Some (Extension.DirsList paths) ->
  default true (Extension.cfg_local_files (Extension.app_config a)) = true ->
  Extension.app_base_url a = Some base_url ->
  let once :=
    fst (Extension.load_jupyter_server_extension module_dir jupyter_path url_path_join a) in
  let twice :=
    fst (Extension.load_jupyter_server_extension module_dir jupyter_path url_path_join once) in
  Extension.cfg_template_dirs (Extension.app_config once)
    = Some (Extension.DirsList (search_path module_dir jupyter_path
                                  (Extension.app_config a) paths)) /\
  Extension.cfg_template_dirs (Extension.app_config twice)
    = Some (Extension.DirsList
              (search_path module_dir jupyter_path (Extension.app_config a)
                 (search_path module_dir jupyter_path (Extension.app_config a) paths))) /\
  length (Extension.app_handlers twice) = length (Extension.app_handlers a) + 4.
Proof.
  intros Hdirs Hlocal Hbase once twice.
  assert (Hdirs' : default (Extension.DirsList [])
                     (Extension.cfg_template_dirs (Extension.app_config a))
                   = Extension.DirsList paths) by (rewrite Hdirs; reflexivity).
  pose proof (load_local_list module_dir jupyter_path url_path_join a paths base_url
                Hdirs' Hlocal Hbase) as Hload. simpl in Hload.
  subst twice once. rewrite Hload. cbn [fst].
  match goal with |- context [Extension.app_config ?x] => set (a1 := x) end.
  assert (Hc1 : Extension.app_config a1
                = Extension.store_dirs (Extension.app_config a)
                    (Extension.DirsList (search_path module_dir jupyter_path
                                           (Extension.app_config a) paths))) by reflexivity.
  assert (Hstored : Extension.cfg_template_dirs (Extension.app_config a1)
                    = Some (Extension.DirsList (search_path module_dir jupyter_path
                                                  (Extension.app_config a) paths))).
  { rewrite Hc1. unfold Extension.store_dirs. rewrite Hdirs. reflexivity. }
  assert (Hsame : search_path module_dir jupyter_path (Extension.app_config a1)
                  = search_path module_dir jupyter_path (Extension.app_config a)).
  { rewrite Hc1. unfold Extension.store_dirs. rewrite Hdirs. reflexivity. }
  assert (Hlocal1 : default true (Extension.cfg_local_files (Extension.app_config a1)) = true).
  { rewrite Hc1. unfold Extension.store_dirs. rewrite Hdirs. exact Hlocal. }
  assert (Hbase1 : Extension.app_base_url a1 = Some base_url) by exact Hbase.
  assert (Hhandlers : length (Extension.app_handlers a1)
                      = length (Extension.app_handlers a) + 2).
  { subst a1. simpl. rewrite !length_app. simpl. lia. }
  clearbody a1.
  split; [exact Hstored |].
  pose proof (load_local_list module_dir jupyter_path url_path_join a1
                (search_path module_dir jupyter_path (Extension.app_config a) paths) base_url
                ltac:(rewrite Hstored; reflexivity) Hlocal1 Hbase1) as Hload1.
  cbv zeta in Hload1. rewrite Hload1. cbn [fst Extension.app_config Extension.app_handlers].
  split.
  - unfold Extension.store_dirs. rewrite Hstored. cbn [Extension.cfg_template_dirs].
    rewrite Hsame. reflexivity.
  - rewrite !length_app, Hhandlers. simpl. lia.
Qed.

Lemma extension_changes_the_configured_list_witness :
  Extension.cfg_template_dirs
    (Extension.app_config
       (fst (Extension.load_jupyter_server_extension "/pkg" [] url_join_example
               (fst (Extension.load_jupyter_server_extension "/pkg" [] url_join_example
                       app_example)))))
  = Some (Extension.DirsList ["/pkg/templates"; "/pkg/templates"; "/srv/one"; "/srv/two"]).
Proof.
  destruct (extension_changes_the_configured_list "/pkg" [] url_join_example app_example
              ["/srv/one"; "/srv/two"] "/" eq_refl eq_refl eq_refl) as (_ & Htwice & _).
  exact Htwice.
Defined.
